(** * AddTaskDrawer: the task-draft builder of Focus_do

    A shallow embedding of [src/components/AddTaskDrawer.tsx]: the draft
    state held by [useState], the event handlers that update it, and the
    submission handler that hands the finished payload to [onAddTask].

    The JavaScript built-ins that the handlers call ([String.prototype.trim],
    [parseInt], the [Date] constructor on a date-only string,
    [Date.prototype.getTimezoneOffset], [Date.prototype.toISOString],
    [String.prototype.split]) are modelled after ECMA-262. *)

From Stdlib Require Import ZArith List Lia Bool String Ascii.
From stdpp Require Import base gmap strings list.
Import ListNotations.

Open Scope Z_scope.

(** ** JavaScript strings

    A JavaScript string is a sequence of UTF-16 code units. *)

Module JSString.

Definition jsstring := list Z.

(** An ASCII literal as a sequence of code units. *)
Definition lit (s : string) : jsstring :=
  List.map (fun a => Z.of_N (N_of_ascii a)) (list_ascii_of_string s).

(** ECMA-262 WhiteSpace: TAB, VT, FF, ZWNBSP and the Unicode category Zs. *)
Definition isWhiteSpace (c : Z) : bool :=
  (c =? 9) || (c =? 11) || (c =? 12) || (c =? 32) || (c =? 160)
  || (c =? 5760) || ((8192 <=? c) && (c <=? 8202))
  || (c =? 8239) || (c =? 8287) || (c =? 12288) || (c =? 65279).

(** ECMA-262 LineTerminator: LF, CR, LS, PS. *)
Definition isLineTerminator (c : Z) : bool :=
  (c =? 10) || (c =? 13) || (c =? 8232) || (c =? 8233).

Definition isTrimmed (c : Z) : bool := isWhiteSpace c || isLineTerminator c.

Fixpoint trimStart (s : jsstring) : jsstring :=
  match s with
  | [] => []
  | c :: r => if isTrimmed c then trimStart r else s
  end.

Definition trimEnd (s : jsstring) : jsstring := rev (trimStart (rev s)).

(** [String.prototype.trim]. *)
Definition trim (s : jsstring) : jsstring := trimEnd (trimStart s).

(** [s.split(sep)[0]] for a one-code-unit separator: the code units before
    the first occurrence of [sep], the whole string when there is none. *)
Fixpoint split_first (sep : Z) (s : jsstring) : jsstring :=
  match s with
  | [] => []
  | c :: r => if c =? sep then [] else c :: split_first sep r
  end.

(** A string is falsy exactly when it is empty. *)
Definition truthy (s : jsstring) : bool :=
  match s with [] => false | _ => true end.

End JSString.
Export JSString.

(** ** JavaScript numbers

    Every number this component handles is an integer, an infinity or NaN
    (identifiers, indices, minutes, results of [parseInt]).  The two zeros
    are identified: both are falsy and no handler tells them apart. *)

Module JSNumber.

Inductive Number :=
| NaN
| PosInf
| NegInf
| Num (z : Z).

(** ToBoolean on a number: NaN and zero are falsy. *)
Definition truthyN (n : Number) : bool :=
  match n with
  | NaN => false
  | Num z => negb (z =? 0)
  | _ => true
  end.

(** [a || b] on numbers. *)
Definition orN (a b : Number) : Number := if truthyN a then a else b.

(** The Number value of a mathematical integer: round to 53 significant
    bits, ties to even, overflowing to an infinity from 2^1024. *)
Definition toNumber (z : Z) : Number :=
  let a := Z.abs z in
  if a <? 2 ^ 53 then Num z
  else
    let e := Z.log2 a - 52 in
    let q := Z.shiftr a e in
    let r := a - Z.shiftl q e in
    let half := Z.shiftl 1 (e - 1) in
    let q' := if (half <? r) || ((r =? half) && Z.odd q) then q + 1 else q in
    let v := Z.shiftl q' e in
    if 2 ^ 1024 <=? v then (if z <? 0 then NegInf else PosInf)
    else Num (Z.sgn z * v).

(** The value of a code unit as a digit, for radices up to 36. *)
Definition digitValue (c : Z) : option Z :=
  if (48 <=? c) && (c <=? 57) then Some (c - 48)
  else if (97 <=? c) && (c <=? 122) then Some (c - 87)
  else if (65 <=? c) && (c <=? 90) then Some (c - 55)
  else None.

(** The longest prefix of radix-[R] digits, as a mathematical integer;
    [acc] is [None] until a digit has been read. *)
Fixpoint parseDigits (R : Z) (acc : option Z) (s : jsstring) : option Z :=
  match s with
  | [] => acc
  | c :: r =>
      match digitValue c with
      | Some d =>
          if d <? R
          then parseDigits R (Some (R * match acc with Some a => a | None => 0 end + d)) r
          else acc
      | None => acc
      end
  end.

(** [parseInt(string)] with the radix argument omitted (ECMA-262 19.2.5):
    leading white space is skipped, a sign is read, a [0x]/[0X] prefix
    selects radix 16, and the longest run of digits is converted; no digit
    at all gives NaN. *)
Definition parseInt (s : jsstring) : Number :=
  let str := trimStart s in
  let sign := match str with c :: _ => if c =? 45 then -1 else 1 | [] => 1 end in
  let str1 := match str with
              | c :: r => if (c =? 43) || (c =? 45) then r else str
              | [] => str
              end in
  let '(R, ds) := match str1 with
                  | c :: x :: r =>
                      if (c =? 48) && ((x =? 120) || (x =? 88)) then (16, r) else (10, str1)
                  | _ => (10, str1)
                  end in
  match parseDigits R None ds with
  | None => NaN
  | Some mathInt => toNumber (sign * mathInt)
  end.

End JSNumber.
Export JSNumber.

(** ** JavaScript dates (ECMA-262 21.4.1)

    A [Date] holds a time value: an integral number of milliseconds since
    the epoch, or NaN for an invalid date ([None]). *)

Module JSDate.

Definition Date := option Z.

Definition msPerDay : Z := 86400000.
Definition msPerHour : Z := 3600000.
Definition msPerMinute : Z := 60000.
Definition msPerSecond : Z := 1000.

Definition Day (t : Z) : Z := t / msPerDay.
Definition TimeWithinDay (t : Z) : Z := t mod msPerDay.

Definition DaysInYear (y : Z) : Z :=
  if negb (y mod 4 =? 0) then 365
  else if negb (y mod 100 =? 0) then 366
  else if negb (y mod 400 =? 0) then 365
  else 366.

Definition DayFromYear (y : Z) : Z :=
  365 * (y - 1970) + (y - 1969) / 4 - (y - 1901) / 100 + (y - 1601) / 400.

Definition TimeFromYear (y : Z) : Z := msPerDay * DayFromYear y.

(** The largest [y] with [TimeFromYear y <= t]: the mean Gregorian year
    gives an estimate that is off by at most one. *)
Definition YearFromTime (t : Z) : Z :=
  let d := Day t in
  let y := 1970 + (400 * d) / 146097 in
  if DayFromYear (y + 1) <=? d then y + 1
  else if DayFromYear y <=? d then y
  else y - 1.

Definition InLeapYear (t : Z) : Z :=
  if DaysInYear (YearFromTime t) =? 366 then 1 else 0.

Definition DayWithinYear (t : Z) : Z := Day t - DayFromYear (YearFromTime t).

(** Month number, 0 for January. *)
Definition MonthFromTime (t : Z) : Z :=
  let d := DayWithinYear t in
  let l := InLeapYear t in
  if d <? 31 then 0
  else if d <? 59 + l then 1
  else if d <? 90 + l then 2
  else if d <? 120 + l then 3
  else if d <? 151 + l then 4
  else if d <? 181 + l then 5
  else if d <? 212 + l then 6
  else if d <? 243 + l then 7
  else if d <? 273 + l then 8
  else if d <? 304 + l then 9
  else if d <? 334 + l then 10
  else 11.

(** Day of the month, from 1. *)
Definition DateFromTime (t : Z) : Z :=
  let d := DayWithinYear t in
  let l := InLeapYear t in
  match MonthFromTime t with
  | 0 => d + 1
  | 1 => d - 30
  | 2 => d - 58 - l
  | 3 => d - 89 - l
  | 4 => d - 119 - l
  | 5 => d - 150 - l
  | 6 => d - 180 - l
  | 7 => d - 211 - l
  | 8 => d - 242 - l
  | 9 => d - 272 - l
  | 10 => d - 303 - l
  | _ => d - 333 - l
  end.

Definition HourFromTime (t : Z) : Z := (t / msPerHour) mod 24.
Definition MinFromTime (t : Z) : Z := (t / msPerMinute) mod 60.
Definition SecFromTime (t : Z) : Z := (t / msPerSecond) mod 60.
Definition msFromTime (t : Z) : Z := t mod msPerSecond.

Definition MakeTime (hour min sec ms : Z) : Z :=
  hour * msPerHour + min * msPerMinute + sec * msPerSecond + ms.

(** Days of the year before month [mn] (0 for January). *)
Definition daysBeforeMonth (mn leap : Z) : Z :=
  match mn with
  | 0 => 0
  | 1 => 31
  | 2 => 59 + leap
  | 3 => 90 + leap
  | 4 => 120 + leap
  | 5 => 151 + leap
  | 6 => 181 + leap
  | 7 => 212 + leap
  | 8 => 243 + leap
  | 9 => 273 + leap
  | 10 => 304 + leap
  | _ => 334 + leap
  end.

(** [MakeDay]: the day number of the first of month [mn] of year [ym],
    plus [date - 1]. *)
Definition MakeDay (year month date : Z) : Z :=
  let ym := year + month / 12 in
  let mn := month mod 12 in
  DayFromYear ym + daysBeforeMonth mn (if DaysInYear ym =? 366 then 1 else 0)
  + date - 1.

Definition MakeDate (day time : Z) : Z := day * msPerDay + time.

Definition TimeClip (t : Z) : Date :=
  if 8640000000000000 <? Z.abs t then None else Some t.

Definition isDigit (c : Z) : bool := (48 <=? c) && (c <=? 57).

(** The number written by a run of decimal digits. *)
Definition decimal (ds : list Z) : Z :=
  fold_left (fun acc c => 10 * acc + (c - 48)) ds 0.

(** The fields of a date-only string [YYYY-MM-DD]. *)
Definition dateOnlyFields (s : jsstring) : option (Z * Z * Z) :=
  match s with
  | [y1; y2; y3; y4; h1; m1; m2; h2; d1; d2] =>
      if forallb isDigit [y1; y2; y3; y4; m1; m2; d1; d2] && (h1 =? 45) && (h2 =? 45)
      then Some (decimal [y1; y2; y3; y4], decimal [m1; m2], decimal [d1; d2])
      else None
  | _ => None
  end.

(** [new Date(string)] on the date-only form [YYYY-MM-DD] of the date-time
    string format, which is read as UTC midnight of that day; a month
    outside 01..12 or a day outside 01..31 is no instance of the format.
    The empty string gives an invalid date.  The other forms the
    constructor reads (a time of day, an expanded year, what an engine
    accepts besides) are not modelled: they are mapped to an invalid date
    here, and no property below is stated about them. *)
Definition Date_parse (s : jsstring) : Date :=
  match dateOnlyFields s with
  | Some (y, m, d) =>
      if (1 <=? m) && (m <=? 12) && (1 <=? d) && (d <=? 31)
      then TimeClip (MakeDate (MakeDay y (m - 1) d) (MakeTime 0 0 0 0))
      else None
  | None => None
  end.

(** [new Date(number)]. *)
Definition Date_of_number (n : option Z) : Date :=
  match n with
  | Some t => TimeClip t
  | None => None
  end.

Definition getTime (d : Date) : option Z := d.

(** The [k] low decimal digits of [n], most significant first. *)
Fixpoint digits (k : nat) (n : Z) : jsstring :=
  match k with
  | O => []
  | S k' => digits k' (n / 10) ++ [48 + n mod 10]
  end.

Inductive JSError := TypeError | RangeError.

(** The year of an ISO string: four digits, or a sign and six digits
    outside 0..9999. *)
Definition isoYear (y : Z) : jsstring :=
  if (0 <=? y) && (y <=? 9999) then digits 4 y
  else (if y <? 0 then 45 else 43) :: digits 6 (Z.abs y).

(** [YYYY-MM-DD] of the UTC day of [t]. *)
Definition isoDate (t : Z) : jsstring :=
  isoYear (YearFromTime t) ++ [45] ++ digits 2 (MonthFromTime t + 1)
    ++ [45] ++ digits 2 (DateFromTime t).

(** [HH:mm:ss.sss] of the UTC time of day of [t]. *)
Definition isoTime (t : Z) : jsstring :=
  digits 2 (HourFromTime t) ++ [58] ++ digits 2 (MinFromTime t)
    ++ [58] ++ digits 2 (SecFromTime t) ++ [46] ++ digits 3 (msFromTime t).

(** [Date.prototype.toISOString]: a RangeError on an invalid date, else
    the UTC date and time joined by [T] and closed by [Z]. *)
Definition toISOString (d : Date) : JSError + jsstring :=
  match d with
  | None => inl RangeError
  | Some t => inr (isoDate t ++ [84] ++ isoTime t ++ [90])
  end.

(** Days in month [m] (1 for January) of year [y]. *)
Definition DaysInMonth (y m : Z) : Z :=
  match m with
  | 2 => if DaysInYear y =? 366 then 29 else 28
  | 4 | 6 | 9 | 11 => 30
  | _ => 31
  end.

(** The values a date field holding a date can have: [YYYY-MM-DD] naming
    a day of the calendar. *)
Definition isDateInputValue (s : jsstring) : bool :=
  match dateOnlyFields s with
  | Some (y, m, d) =>
      (1 <=? m) && (m <=? 12) && (1 <=? d) && (d <=? DaysInMonth y m)
  | None => false
  end.

End JSDate.
Export JSDate.

(** ** The component: draft state and handlers *)

Module AddTaskDrawer.

Record Subtask := {
  sub_id : Number;
  sub_title : jsstring;
  sub_completed : bool
}.

Record NewTaskData := {
  title : jsstring;
  listId : Number;
  dueDate : Date;
  startTime : jsstring;
  duration : Number;
  isFixed : bool;
  completed : bool;
  important : bool;
  notes : jsstring;
  subtasks : list Subtask
}.

Record TaskList := {
  tl_id : Number;
  tl_name : jsstring;
  tl_icon : jsstring;
  tl_color : jsstring;
  tl_description : jsstring
}.

(** Functional update of one field, [{ ...prev, field: v }]. *)
Definition set_title (v : jsstring) (t : NewTaskData) : NewTaskData :=
  {| title := v; listId := listId t; dueDate := dueDate t; startTime := startTime t;
     duration := duration t; isFixed := isFixed t; completed := completed t;
     important := important t; notes := notes t; subtasks := subtasks t |}.
Definition set_listId (v : Number) (t : NewTaskData) : NewTaskData :=
  {| title := title t; listId := v; dueDate := dueDate t; startTime := startTime t;
     duration := duration t; isFixed := isFixed t; completed := completed t;
     important := important t; notes := notes t; subtasks := subtasks t |}.
Definition set_dueDate (v : Date) (t : NewTaskData) : NewTaskData :=
  {| title := title t; listId := listId t; dueDate := v; startTime := startTime t;
     duration := duration t; isFixed := isFixed t; completed := completed t;
     important := important t; notes := notes t; subtasks := subtasks t |}.
Definition set_startTime (v : jsstring) (t : NewTaskData) : NewTaskData :=
  {| title := title t; listId := listId t; dueDate := dueDate t; startTime := v;
     duration := duration t; isFixed := isFixed t; completed := completed t;
     important := important t; notes := notes t; subtasks := subtasks t |}.
Definition set_duration (v : Number) (t : NewTaskData) : NewTaskData :=
  {| title := title t; listId := listId t; dueDate := dueDate t; startTime := startTime t;
     duration := v; isFixed := isFixed t; completed := completed t;
     important := important t; notes := notes t; subtasks := subtasks t |}.
Definition set_isFixed (v : bool) (t : NewTaskData) : NewTaskData :=
  {| title := title t; listId := listId t; dueDate := dueDate t; startTime := startTime t;
     duration := duration t; isFixed := v; completed := completed t;
     important := important t; notes := notes t; subtasks := subtasks t |}.
Definition set_important (v : bool) (t : NewTaskData) : NewTaskData :=
  {| title := title t; listId := listId t; dueDate := dueDate t; startTime := startTime t;
     duration := duration t; isFixed := isFixed t; completed := completed t;
     important := v; notes := notes t; subtasks := subtasks t |}.
Definition set_notes (v : jsstring) (t : NewTaskData) : NewTaskData :=
  {| title := title t; listId := listId t; dueDate := dueDate t; startTime := startTime t;
     duration := duration t; isFixed := isFixed t; completed := completed t;
     important := important t; notes := v; subtasks := subtasks t |}.
Definition set_subtasks (v : list Subtask) (t : NewTaskData) : NewTaskData :=
  {| title := title t; listId := listId t; dueDate := dueDate t; startTime := startTime t;
     duration := duration t; isFixed := isFixed t; completed := completed t;
     important := important t; notes := notes t; subtasks := v |}.

(** The initial value given to [useState].  [taskLists[0]?.id || 1] is 1
    when there is no first list or its id is falsy; [initialDueDate ||
    new Date()] is the current time [now] when no date is passed (a Date
    object is always truthy). *)
Definition initialState (taskLists : list TaskList) (initialDueDate : option Date)
    (now : Z) : NewTaskData :=
  {| title := [];
     listId := match taskLists with
               | [] => Num 1
               | l :: _ => orN (tl_id l) (Num 1)
               end;
     dueDate := match initialDueDate with
                | Some d => d
                | None => Some now
                end;
     startTime := [];
     duration := Num 60;
     isFixed := false;
     completed := false;
     important := false;
     notes := [];
     subtasks := [] |}.

(** *** Subtask rows *)

(** [arr[index]] for a numeric index: [undefined] ([None]) outside the array. *)
Definition at_index {A} (l : list A) (index : Z) : option A :=
  if index <? 0 then None else l !! Z.to_nat index.

(** [handleSubtaskChange].  The array is copied, the row object at [index]
    is updated in place and the copy is stored.  At an index with no row,
    [updatedSubtasks[index]] is [undefined] and the assignment to its
    [title] throws a TypeError before [setNewTask] is reached.  The row
    object is shared with the previous state's array, which is dropped by
    the state update, so rows are kept by value here. *)
Definition handleSubtaskChange (index : Z) (value : jsstring) (newTask : NewTaskData)
    : JSError + NewTaskData :=
  let updatedSubtasks := subtasks newTask in
  match at_index updatedSubtasks index with
  | None => inl TypeError
  | Some sub =>
      inr (set_subtasks
             (<[Z.to_nat index :=
                  {| sub_id := sub_id sub; sub_title := value;
                     sub_completed := sub_completed sub |}]> updatedSubtasks)
             newTask)
  end.

(** [addSubtask]; [now] is the value of [Date.now()]. *)
Definition addSubtask (now : Z) (prev : NewTaskData) : NewTaskData :=
  set_subtasks
    (subtasks prev ++ [{| sub_id := Num now; sub_title := []; sub_completed := false |}])
    prev.

(** The [disabled] attribute of the Add Subtask button. *)
Definition addSubtaskDisabled (newTask : NewTaskData) : bool :=
  match last (subtasks newTask) with
  | Some sub => match trim (sub_title sub) with [] => true | _ => false end
  | None => false
  end.

(** A click on the Add Subtask button: a disabled button fires no handler. *)
Definition clickAddSubtask (now : Z) (newTask : NewTaskData) : NewTaskData :=
  if addSubtaskDisabled newTask then newTask else addSubtask now newTask.

(** [arr.filter((_, i) => i !== index)]. *)
Definition filter_index {A} (index : Z) (l : list A) : list A :=
  List.map snd
    (List.filter (fun p => negb (Z.of_nat (fst p) =? index))
       (imap (fun i x => (i, x)) l)).

(** [removeSubtask]. *)
Definition removeSubtask (index : Z) (newTask : NewTaskData) : NewTaskData :=
  let updatedSubtasks := filter_index index (subtasks newTask) in
  set_subtasks updatedSubtasks newTask.

(** *** Due date *)

Section TimeZone.
(** The host's time zone: the value of [getTimezoneOffset()], in minutes
    (UTC minus local time), of a date with time value [t]. *)
Variable getTimezoneOffset : Z -> Z.

(** [formatDateForInput]. *)
Definition formatDateForInput (date : Date) : JSError + jsstring :=
  match toISOString date with
  | inl e => inl e
  | inr s => inr (split_first 84 s)
  end.

(** [handleDateChange]. *)
Definition handleDateChange (dateString : jsstring) (prev : NewTaskData) : NewTaskData :=
  let date := Date_parse dateString in
  let timeZoneOffset := option_map (fun t => getTimezoneOffset t * 60000) date in
  let adjustedDate :=
    Date_of_number
      (match getTime date, timeZoneOffset with
       | Some t, Some o => Some (t + o)
       | _, _ => None
       end) in
  set_dueDate adjustedDate prev.

(** What the date field shows after [dateString] was entered: its [value]
    is [formatDateForInput(newTask.dueDate)]. *)
Definition redisplayed (dateString : jsstring) (prev : NewTaskData) : JSError + jsstring :=
  formatDateForInput (dueDate (handleDateChange dateString prev)).

(** *** Scalar fields *)

(** The [onChange] handler of the duration input. *)
Definition handleDurationChange (value : jsstring) (prev : NewTaskData) : NewTaskData :=
  set_duration (orN (parseInt value) (Num 60)) prev.

(** The [onValueChange] handler of the list select. *)
Definition handleListChange (value : jsstring) (prev : NewTaskData) : NewTaskData :=
  set_listId (parseInt value) prev.

(** *** Events the user can cause on the open drawer *)

Inductive Action :=
| ChangeTitle (value : jsstring)
| ChangeList (value : jsstring)
| ChangeDate (value : jsstring)
| ChangeStartTime (value : jsstring)
| ChangeDuration (value : jsstring)
| CheckImportant (checked : bool)
| CheckFixed (checked : bool)
| ChangeSubtask (index : Z) (value : jsstring)
| ClickRemoveSubtask (index : Z)
| ClickAddSubtask (now : Z)
| ChangeNotes (value : jsstring).

Definition handle (a : Action) (st : NewTaskData) : JSError + NewTaskData :=
  match a with
  | ChangeTitle v => inr (set_title v st)
  | ChangeList v => inr (handleListChange v st)
  | ChangeDate v => inr (handleDateChange v st)
  | ChangeStartTime v => inr (set_startTime v st)
  | ChangeDuration v => inr (handleDurationChange v st)
  | CheckImportant b => inr (set_important b st)
  | CheckFixed b => inr (set_isFixed b st)
  | ChangeSubtask i v => handleSubtaskChange i v st
  | ClickRemoveSubtask i => inr (removeSubtask i st)
  | ClickAddSubtask now => inr (clickAddSubtask now st)
  | ChangeNotes v => inr (set_notes v st)
  end.

(** One event: a handler that throws has not called [setNewTask], so the
    state stays as it was. *)
Definition step (st : NewTaskData) (a : Action) : NewTaskData :=
  match handle a st with
  | inr st' => st'
  | inl _ => st
  end.

Definition run (st : NewTaskData) (actions : list Action) : NewTaskData :=
  fold_left step actions st.
End TimeZone.

(** *** Submission *)

(** The values found in the fields of the emitted object. *)
Inductive Value :=
| VString (s : jsstring)
| VNumber (n : Number)
| VBoolean (b : bool)
| VDate (d : Date)
| VSubtasks (l : list Subtask).

(** The draft as a JavaScript object: its own enumerable properties. *)
Definition toObject (t : NewTaskData) : gmap string Value :=
  <["subtasks" := VSubtasks (subtasks t)]>
  (<["notes" := VString (notes t)]>
  (<["important" := VBoolean (important t)]>
  (<["completed" := VBoolean (completed t)]>
  (<["isFixed" := VBoolean (isFixed t)]>
  (<["duration" := VNumber (duration t)]>
  (<["startTime" := VString (startTime t)]>
  (<["dueDate" := VDate (dueDate t)]>
  (<["listId" := VNumber (listId t)]>
  (<["title" := VString (title t)]> ∅))))))))).

Inductive Event :=
| PreventDefault
| OnAddTask (task : gmap string Value)
| OnClose.

Definition nonblank (sub : Subtask) : bool :=
  match trim (sub_title sub) with [] => false | _ => true end.

(** [{ ...sub, id: index }]. *)
Definition withIndex (index : nat) (sub : Subtask) : Subtask :=
  {| sub_id := Num (Z.of_nat index); sub_title := sub_title sub;
     sub_completed := sub_completed sub |}.

(** [newTask.subtasks.map(...).filter(...)] of [handleSubmit]: the rows
    are numbered first and filtered afterwards. *)
Definition finalSubtasks (newTask : NewTaskData) : list Subtask :=
  List.filter nonblank (imap withIndex (subtasks newTask)).

(** [handleSubmit]: the calls it makes on its event and on the callbacks
    of the host, in order.  It never calls [setNewTask]. *)
Definition handleSubmit (newTask : NewTaskData) : list Event :=
  PreventDefault ::
  if negb (truthy (trim (title newTask))) then []
  else
    let taskData := delete "completed" (toObject newTask) in
    [ OnAddTask
        (<["subtasks" := VSubtasks (finalSubtasks newTask)]>
        (<["notes" := VString (trim (notes newTask))]>
        (<["title" := VString (trim (title newTask))]> taskData)));
      OnClose ].

(** A submit event on the form: the calls made, and the draft afterwards
    (the very same state, since [handleSubmit] stores nothing). *)
Definition submit (newTask : NewTaskData) : list Event * NewTaskData :=
  (handleSubmit newTask, newTask).

(** A row whose trimmed title is empty. *)
Definition blank (sub : Subtask) : bool := negb (nonblank sub).

(** The rows an Add Subtask click appends. *)
Definition emptyRow (sub : Subtask) : Prop :=
  sub_title sub = [] /\ sub_completed sub = false.

(** Two rows that agree on everything but the identifier. *)
Definition sameRow (a b : Subtask) : Prop :=
  sub_title a = sub_title b /\ sub_completed a = sub_completed b.


(** Number of rows whose trimmed title is empty. *)
Definition blankCount (l : list Subtask) : nat := length (List.filter blank l).

(** A blank row, if there is one, is the last row. *)
Definition blankOnlyLast (l : list Subtask) : Prop :=
  forall i sub, l !! i = Some sub -> blank sub = true -> S i = length l.

(** An event that does not blank a row: every event but a subtask edit
    whose new title is empty after trimming. *)
Definition keepsRowsFilled (a : Action) : bool :=
  match a with
  | ChangeSubtask _ value => truthy (trim value)
  | _ => true
  end.

(** Index [index] names no row of [l]. *)
Definition outOfBounds {A} (l : list A) (index : Z) : Prop :=
  index < 0 \/ Z.of_nat (length l) <= index.

End AddTaskDrawer.
Export AddTaskDrawer.

(** ** The component: what a render computes from the draft *)

Module Rendering.

(** [a === b] on numbers: NaN equals nothing, itself included. *)
Definition strictEqN (a b : Number) : bool :=
  match a, b with
  | Num x, Num y => x =? y
  | PosInf, PosInf => true
  | NegInf, NegInf => true
  | _, _ => false
  end.

(** [selectedList]: [taskLists.find(list => list.id === newTask.listId)]. *)
Definition selectedList (taskLists : list TaskList) (newTask : NewTaskData)
    : option TaskList :=
  List.find (fun l => strictEqN (tl_id l) (listId newTask)) taskLists.

(** The [disabled] attribute of the Add Task button. *)
Definition submitDisabled (newTask : NewTaskData) : bool :=
  negb (truthy (trim (title newTask))).

(** The decimal digits of [n >= 0], most significant first, at most [fuel]
    of them. *)
Fixpoint decimalDigits (fuel : nat) (n : Z) : jsstring :=
  match fuel with
  | O => []
  | S f => if n <? 10 then [48 + n] else decimalDigits f (n / 10) ++ [48 + n mod 10]
  end.

Section NumberToString.
(** What [Number.prototype.toString] prints for an integer from 2^53 on in
    magnitude (the shortest digits that read back as the same number, in
    exponent notation from 10^21 on); it is left open here. *)
Variable largeToString : Z -> jsstring.

(** [n.toString()]: integers below 2^53 in magnitude are written in plain
    decimal, with a minus sign when negative. *)
Definition toStringN (n : Number) : jsstring :=
  match n with
  | NaN => lit "NaN"
  | PosInf => lit "Infinity"
  | NegInf => lit "-Infinity"
  | Num z =>
      if Z.abs z <? 2 ^ 53
      then (if z <? 0 then [45] else []) ++ decimalDigits 21 (Z.abs z)
      else largeToString z
  end.

(** Choosing the item of list [l] in the select: the item's value is
    [list.id.toString()], and the select passes it to [onValueChange]. *)
Definition selectItem (l : TaskList) (prev : NewTaskData) : NewTaskData :=
  handleListChange (toStringN (tl_id l)) prev.
End NumberToString.

(** Two drafts that agree on every field but the subtask list. *)
Definition sameScalars (a b : NewTaskData) : Prop :=
  title a = title b /\ listId a = listId b /\ dueDate a = dueDate b
  /\ startTime a = startTime b /\ duration a = duration b
  /\ isFixed a = isFixed b /\ completed a = completed b
  /\ important a = important b /\ notes a = notes b.

(** An event that, in the draft [st], blanks no row other than the last
    one: every event but a subtask edit that sets a title empty after
    trimming on an existing row that is not the last. *)
Definition blanksOnlyLast (st : NewTaskData) (a : Action) : bool :=
  match a with
  | ChangeSubtask index value =>
      truthy (trim value)
      || (index + 1 =? Z.of_nat (length (subtasks st)))
      || (index <? 0) || (Z.of_nat (length (subtasks st)) <=? index)
  | _ => true
  end.

(** A session, started in the draft [st], in which every event blanks no
    row other than the last one of the draft it meets. *)
Fixpoint sessionBlanksOnlyLast (getTimezoneOffset : Z -> Z) (st : NewTaskData)
    (actions : list Action) : Prop :=
  match actions with
  | [] => True
  | a :: rest =>
      blanksOnlyLast st a = true
      /\ sessionBlanksOnlyLast getTimezoneOffset (step getTimezoneOffset st a) rest
  end.

(** The events on subtask rows. *)
Definition isSubtaskEvent (a : Action) : bool :=
  match a with
  | ChangeSubtask _ _ | ClickRemoveSubtask _ | ClickAddSubtask _ => true
  | _ => false
  end.

(** The local time of the instant [t] on a host with the given
    [getTimezoneOffset] (ECMA-262 LocalTime); the local getters of a date
    read their fields from it. *)
Definition LocalTime (getTimezoneOffset : Z -> Z) (t : Z) : Z :=
  t - getTimezoneOffset t * msPerMinute.

(** A user session that builds rows with the given titles: each row is
    added and given a filler title, so that the Add Subtask button stays
    enabled, and then every row is given its title. *)
Definition fillerRow : Subtask :=
  {| sub_id := Num 0; sub_title := lit "x"; sub_completed := false |}.

Definition addRows (n : nat) : list Action :=
  flat_map (fun i => [ClickAddSubtask 0; ChangeSubtask (Z.of_nat i) (sub_title fillerRow)])
    (seq 0 n).

Definition setTitles (first : nat) (titles : list jsstring) : list Action :=
  imap (fun i t => ChangeSubtask (Z.of_nat (first + i)) t) titles.

Definition typeRows (titles : list jsstring) : list Action :=
  addRows (length titles) ++ setTitles 0 titles.

End Rendering.
Export Rendering.

(** * Proof automation *)

(** Linear arithmetic with floor division and remainder by constants. *)
Ltac div_lia := Z.div_mod_to_equations; lia.

Ltac month_cases m Hm :=
  assert (m = 1 \/ m = 2 \/ m = 3 \/ m = 4 \/ m = 5 \/ m = 6 \/ m = 7 \/ m = 8
          \/ m = 9 \/ m = 10 \/ m = 11 \/ m = 12) as Hm by lia;
  repeat destruct Hm as [Hm|Hm]; subst m.

Ltac decide_ltb :=
  repeat match goal with
         | |- context [?a <? ?b] => destruct (Z.ltb_spec a b); try lia
         end.

Ltac first_ltb :=
  match goal with
  | |- context [if ?a <? ?b then _ else _] => destruct (Z.ltb_spec a b); cbv iota
  end.

(** * Properties *)

(** ** Strings and numbers *)

Lemma trim_lit_buy_milk : trim (lit "  Buy milk  ") = lit "Buy milk".
Proof. reflexivity. Qed.

Lemma truthy_nil_iff (s : jsstring) : truthy s = false <-> s = [].
Proof. destruct s; simpl; split; congruence. Qed.

Lemma orN_falsy (a b : Number) : truthyN a = false -> orN a b = b.
Proof. unfold orN. intros ->. reflexivity. Qed.

Lemma orN_truthy (a b : Number) : truthyN a = true -> orN a b = a.
Proof. unfold orN. intros ->. reflexivity. Qed.

Lemma truthyN_false_iff (n : Number) : truthyN n = false <-> n = NaN \/ n = Num 0.
Proof.
  destruct n as [| | |z]; simpl.
  - split; [now left | reflexivity].
  - split; [discriminate | intros [?|?]; discriminate].
  - split; [discriminate | intros [?|?]; discriminate].
  - destruct (Z.eqb_spec z 0) as [->|Hz]; simpl.
    + split; [now right | reflexivity].
    + split; [discriminate | intros [H|H]; [discriminate | congruence]].
Qed.

(** ** Subtask rows: index helpers *)

Lemma at_index_None {A} (l : list A) (index : Z) :
  at_index l index = None <-> outOfBounds l index.
Proof.
  unfold at_index, outOfBounds.
  destruct (Z.ltb_spec index 0) as [Hneg|Hpos].
  - split; [intros _; now left | reflexivity].
  - rewrite lookup_ge_None. split; intros H; lia.
Qed.

Lemma at_index_Some {A} (l : list A) (index : Z) (x : A) :
  at_index l index = Some x <-> 0 <= index /\ l !! Z.to_nat index = Some x.
Proof.
  unfold at_index.
  destruct (Z.ltb_spec index 0) as [Hneg|Hpos]; split.
  - discriminate.
  - intros [? _]. lia.
  - intros H. split; [lia | exact H].
  - intros [_ H]. exact H.
Qed.

Lemma handleSubtaskChange_in_bounds (index : Z) (value : jsstring)
    (st : NewTaskData) (sub : Subtask) :
  at_index (subtasks st) index = Some sub ->
  handleSubtaskChange index value st
  = inr (set_subtasks
           (<[Z.to_nat index :=
                {| sub_id := sub_id sub; sub_title := value;
                   sub_completed := sub_completed sub |}]> (subtasks st)) st).
Proof. intros H. unfold handleSubtaskChange. rewrite H. reflexivity. Qed.

(** ** C3: editing a row that does not exist *)

(** C3, as stated, fails: on the fresh draft, which has no rows, index 0 is
    out of bounds and [handleSubtaskChange] does not return normally; it
    throws a TypeError. *)
Lemma out_of_bounds_edit_throws :
  let st := initialState [] None 0 in
  outOfBounds (subtasks st) 0 /\
  handleSubtaskChange 0 (lit "x") st = inl TypeError /\
  forall st', handleSubtaskChange 0 (lit "x") st <> inr st'.
Proof.
  simpl. split; [right; simpl; lia|]. split; [reflexivity|]. intros st'. discriminate.
Qed.

(** C3, amended: for every draft state and every index that is out of
    bounds of the current subtask list, [handleSubtaskChange] throws a
    TypeError before it stores anything, so the draft state is unchanged
    by the event. *)
Theorem handleSubtaskChange_out_of_bounds (tz : Z -> Z) (index : Z)
    (value : jsstring) (st : NewTaskData) :
  outOfBounds (subtasks st) index ->
  handleSubtaskChange index value st = inl TypeError
  /\ step tz st (ChangeSubtask index value) = st.
Proof.
  intros Hout. apply at_index_None in Hout.
  assert (H : handleSubtaskChange index value st = inl TypeError).
  { unfold handleSubtaskChange. rewrite Hout. reflexivity. }
  split; [exact H|]. unfold step. simpl. rewrite H. reflexivity.
Qed.

Lemma handleSubtaskChange_out_of_bounds_witness :
  let st := addSubtask 7 (initialState [] None 0) in
  handleSubtaskChange 1 (lit "x") st = inl TypeError
  /\ step (fun _ => 0) st (ChangeSubtask 1 (lit "x")) = st.
Proof.
  apply (handleSubtaskChange_out_of_bounds (fun _ => 0) 1 (lit "x")
           (addSubtask 7 (initialState [] None 0))).
  right. simpl. lia.
Defined.

(** ** C4 and C8: submission *)

Lemma toObject_dom (st : NewTaskData) :
  dom (toObject st)
  = list_to_set ["title"; "listId"; "dueDate"; "startTime"; "duration"; "isFixed";
                 "completed"; "important"; "notes"; "subtasks"].
Proof. unfold toObject. rewrite !dom_insert_L, dom_empty_L. set_solver. Qed.

(** C4: for every draft whose title is empty after trimming, submission
    stops at the guard: the only call made is [preventDefault] on the form
    event, so no payload reaches [onAddTask], [onClose] is not called, and
    the draft state is unchanged. *)
Theorem handleSubmit_blank_title (st : NewTaskData) :
  trim (title st) = [] ->
  submit st = ([PreventDefault], st)
  /\ (forall task, ~ In (OnAddTask task) (handleSubmit st))
  /\ ~ In OnClose (handleSubmit st).
Proof.
  intros Hblank.
  assert (H : handleSubmit st = [PreventDefault]).
  { unfold handleSubmit. rewrite Hblank. reflexivity. }
  unfold submit. rewrite H. split; [reflexivity|].
  split; [intros task|]; simpl; intros [Heq|[]]; discriminate.
Qed.

Lemma handleSubmit_blank_title_witness :
  let st := set_title (lit "   ") (initialState [] None 0) in
  submit st = ([PreventDefault], st)
  /\ (forall task, ~ In (OnAddTask task) (handleSubmit st))
  /\ ~ In OnClose (handleSubmit st).
Proof.
  apply (handleSubmit_blank_title (set_title (lit "   ") (initialState [] None 0))).
  reflexivity.
Defined.

(** C8: for every draft whose title is non-empty after trimming,
    submission makes exactly one [onAddTask] call followed by exactly one
    [onClose] call; the object passed has the trimmed title under [title],
    the trimmed notes under [notes], and no [completed] property: its
    properties are those of the draft but [completed]. *)
Theorem handleSubmit_emits (st : NewTaskData) :
  trim (title st) <> [] ->
  exists task : gmap string Value,
    handleSubmit st = [PreventDefault; OnAddTask task; OnClose]
    /\ task !! "title" = Some (VString (trim (title st)))
    /\ task !! "notes" = Some (VString (trim (notes st)))
    /\ task !! "completed" = None
    /\ dom task = dom (toObject st) ∖ {["completed"]}.
Proof.
  intros Hne. unfold handleSubmit.
  destruct (trim (title st)) as [|c r] eqn:Ht; [congruence|]. simpl.
  eexists. split; [reflexivity|].
  split; [reflexivity|]. split; [reflexivity|]. split; [reflexivity|].
  rewrite !dom_insert_L, dom_delete_L, toObject_dom. set_solver.
Qed.

Lemma handleSubmit_emits_witness :
  let st := set_notes (lit " n ") (set_title (lit "  Buy milk  ") (initialState [] None 0)) in
  exists task : gmap string Value,
    handleSubmit st = [PreventDefault; OnAddTask task; OnClose]
    /\ task !! "title" = Some (VString (lit "Buy milk"))
    /\ task !! "notes" = Some (VString (lit "n"))
    /\ task !! "completed" = None
    /\ dom task = dom (toObject st) ∖ {["completed"]}.
Proof.
  apply (handleSubmit_emits
           (set_notes (lit " n ") (set_title (lit "  Buy milk  ") (initialState [] None 0)))).
  simpl. discriminate.
Defined.

(** ** C7: the guarded Add Subtask click *)

Lemma addSubtaskDisabled_true_iff (st : NewTaskData) :
  addSubtaskDisabled st = true
  <-> exists pre sub, subtasks st = pre ++ [sub] /\ trim (sub_title sub) = [].
Proof.
  unfold addSubtaskDisabled. split.
  - destruct (last (subtasks st)) as [sub|] eqn:Hl; [|discriminate].
    apply last_Some in Hl as [pre Hpre].
    destruct (trim (sub_title sub)) eqn:Ht; [|discriminate].
    intros _. exists pre, sub. split; assumption.
  - intros (pre & sub & Hpre & Ht). rewrite Hpre, last_snoc, Ht. reflexivity.
Qed.

Lemma addSubtaskDisabled_false_iff (st : NewTaskData) :
  addSubtaskDisabled st = false
  <-> subtasks st = []
      \/ exists pre sub, subtasks st = pre ++ [sub] /\ trim (sub_title sub) <> [].
Proof.
  unfold addSubtaskDisabled. split.
  - destruct (last (subtasks st)) as [sub|] eqn:Hl.
    + apply last_Some in Hl as [pre Hpre].
      destruct (trim (sub_title sub)) eqn:Ht; [discriminate|].
      intros _. right. exists pre, sub. split; [assumption|]. rewrite Ht. discriminate.
    + apply last_None in Hl. intros _. now left.
  - intros [Hnil|(pre & sub & Hpre & Ht)].
    + rewrite Hnil. reflexivity.
    + rewrite Hpre, last_snoc. destruct (trim (sub_title sub)); congruence.
Qed.

(** C7: for every draft state, a click on the guarded Add Subtask button
    leaves the state as it is when the subtask list is non-empty and the
    trimmed title of its last row is empty; otherwise it appends exactly
    one row, with empty title and [completed = false], after the existing
    rows, which stay as they are, and touches no other field. *)
Theorem clickAddSubtask_guarded (now : Z) (st : NewTaskData) :
  (forall pre sub,
      subtasks st = pre ++ [sub] -> trim (sub_title sub) = [] ->
      clickAddSubtask now st = st)
  /\ ((subtasks st = []
       \/ exists pre sub, subtasks st = pre ++ [sub] /\ trim (sub_title sub) <> []) ->
      exists row,
        emptyRow row
        /\ subtasks (clickAddSubtask now st) = subtasks st ++ [row]
        /\ sameScalars (clickAddSubtask now st) st).
Proof.
  split.
  - intros pre sub Hpre Ht. unfold clickAddSubtask.
    replace (addSubtaskDisabled st) with true; [reflexivity|].
    symmetry. apply addSubtaskDisabled_true_iff. eauto.
  - intros H. apply addSubtaskDisabled_false_iff in H.
    unfold clickAddSubtask. rewrite H.
    exists {| sub_id := Num now; sub_title := []; sub_completed := false |}.
    split; [split; reflexivity|]. split; [reflexivity|].
    unfold sameScalars. repeat split.
Qed.

Lemma clickAddSubtask_guarded_witness :
  let st := addSubtask 7 (initialState [] None 0) in
  clickAddSubtask 8 st = st
  /\ exists row,
       emptyRow row
       /\ subtasks (clickAddSubtask 7 (initialState [] None 0))
          = subtasks (initialState [] None 0) ++ [row]
       /\ sameScalars (clickAddSubtask 7 (initialState [] None 0))
            (initialState [] None 0).
Proof.
  split.
  - apply (proj1 (clickAddSubtask_guarded 8 (addSubtask 7 (initialState [] None 0)))
             [] {| sub_id := Num 7; sub_title := []; sub_completed := false |});
      reflexivity.
  - apply (proj2 (clickAddSubtask_guarded 7 (initialState [] None 0))).
    left. reflexivity.
Defined.

(** ** C9: the list selected when the drawer opens *)

(** C9: the initial [listId] is the first supplied list's id exactly when
    that id is truthy; with no list supplied, or with a first id of 0, it
    is the constant 1, and then it need not be the id of any supplied
    list. *)
Theorem initialState_listId (taskLists : list TaskList) (initialDueDate : option Date)
    (now : Z) :
  let st := initialState taskLists initialDueDate now in
  (taskLists = [] -> listId st = Num 1)
  /\ (forall l rest, taskLists = l :: rest ->
        truthyN (tl_id l) = true -> listId st = tl_id l)
  /\ (forall l rest, taskLists = l :: rest ->
        tl_id l = Num 0 -> listId st = Num 1)
  /\ (forall l rest, taskLists = l :: rest ->
        listId st = tl_id l -> truthyN (tl_id l) = true)
  /\ (forall l rest, taskLists = l :: rest ->
        tl_id l = Num 0 -> Forall (fun l' => tl_id l' <> Num 1) rest ->
        Forall (fun l' => tl_id l' <> listId st) taskLists).
Proof.
  simpl. repeat split.
  - intros ->. reflexivity.
  - intros l rest -> Ht. simpl. apply orN_truthy, Ht.
  - intros l rest -> H0. simpl. rewrite H0. reflexivity.
  - intros l rest -> Heq. simpl in Heq. unfold orN in Heq.
    destruct (truthyN (tl_id l)) eqn:Ht; [reflexivity|].
    rewrite <- Heq in Ht. discriminate.
  - intros l rest -> H0 Hrest. simpl. rewrite H0. simpl.
    constructor; [rewrite H0; discriminate | exact Hrest].
Qed.

Lemma initialState_listId_witness :
  let home := {| tl_id := Num 0; tl_name := lit "Home"; tl_icon := [];
                 tl_color := []; tl_description := [] |} in
  let st := initialState [home] None 0 in
  listId st = Num 1 /\ Forall (fun l' => tl_id l' <> listId st) [home].
Proof.
  pose (home := {| tl_id := Num 0; tl_name := lit "Home"; tl_icon := [];
                   tl_color := []; tl_description := [] |}).
  pose proof (initialState_listId [home] None 0) as H. simpl in H.
  destruct H as (_ & _ & H3 & _ & H5).
  split.
  - apply (H3 home []); reflexivity.
  - apply (H5 home []); [reflexivity | reflexivity | constructor].
Defined.

(** ** Subtask rows: removal and numbering *)

Lemma filter_index_shift {A} (index : Z) (k : nat) (l : list A) :
  List.map snd
    (List.filter (fun p => negb (Z.of_nat (fst p) =? index))
       (imap (fun i x => ((k + i)%nat, x)) l))
  = if index <? Z.of_nat k then l else delete (Z.to_nat index - k)%nat l.
Proof.
  revert k. induction l as [|x l IH]; intros k.
  - simpl. destruct (index <? Z.of_nat k); reflexivity.
  - cbn [imap List.filter List.map fst snd].
    rewrite (imap_ext _ (fun i y => ((S k + i)%nat, y))).
    2:{ intros i y _. unfold compose. f_equal. lia. }
    specialize (IH (S k)).
    replace (k + 0)%nat with k by lia.
    destruct (Z.eqb_spec (Z.of_nat k) index) as [Heq|Hne]; cbn [negb List.map snd].
    + rewrite IH.
      destruct (Z.ltb_spec index (Z.of_nat (S k))), (Z.ltb_spec index (Z.of_nat k));
        try lia.
      replace (Z.to_nat index - k)%nat with 0%nat by lia. reflexivity.
    + rewrite IH.
      destruct (Z.ltb_spec index (Z.of_nat (S k))), (Z.ltb_spec index (Z.of_nat k));
        try lia; try reflexivity.
      replace (Z.to_nat index - k)%nat with (S (Z.to_nat index - S k)) by lia.
      reflexivity.
Qed.

(** Removal by position: the list without its element at [index], and the
    list itself when there is no such element. *)
Lemma filter_index_delete {A} (index : Z) (l : list A) :
  filter_index index l = if index <? 0 then l else delete (Z.to_nat index) l.
Proof.
  unfold filter_index.
  rewrite (imap_ext _ (fun i x => ((0 + i)%nat, x))) by reflexivity.
  rewrite filter_index_shift. change (Z.of_nat 0) with 0.
  destruct (index <? 0); [reflexivity|]. f_equal. lia.
Qed.

Lemma filter_index_out_of_bounds {A} (index : Z) (l : list A) :
  outOfBounds l index -> filter_index index l = l.
Proof.
  intros Hout. rewrite filter_index_delete.
  destruct (Z.ltb_spec index 0); [reflexivity|].
  destruct Hout; [lia|].
  rewrite delete_take_drop, take_ge, drop_ge, app_nil_r by lia. reflexivity.
Qed.

Lemma Forall_filter_index {A} (P : A -> Prop) (index : Z) (l : list A) :
  Forall P l -> Forall P (filter_index index l).
Proof.
  intros H. rewrite filter_index_delete.
  destruct (index <? 0); [exact H|]. now apply Forall_delete.
Qed.

Lemma nonblank_withIndex (i : nat) (sub : Subtask) :
  nonblank (withIndex i sub) = nonblank sub.
Proof. reflexivity. Qed.

Lemma numbered_filter_lookup (k : nat) (l : list Subtask) (j : nat) (out : Subtask) :
  List.filter nonblank (imap (fun i => withIndex (k + i)) l) !! j = Some out ->
  exists i sub,
    (j <= i)%nat /\ l !! i = Some sub /\ nonblank sub = true
    /\ out = withIndex (k + i) sub.
Proof.
  revert k j. induction l as [|x l IH]; intros k j; [discriminate|].
  cbn [imap List.filter].
  rewrite (imap_ext _ (fun i => withIndex (S k + i))).
  2:{ intros i y _. unfold compose. f_equal. lia. }
  rewrite nonblank_withIndex.
  destruct (nonblank x) eqn:Hx.
  - destruct j as [|j]; simpl.
    + intros [= <-]. exists 0%nat, x. repeat split; [lia | assumption].
    + intros H. apply (IH (S k) j) in H as (i & sub & Hji & Hl & Hn & ->).
      exists (S i), sub. repeat split; [lia | assumption | assumption | f_equal; lia].
  - intros H. apply IH in H as (i & sub & Hji & Hl & Hn & ->).
    exists (S i), sub. repeat split; [lia | assumption | assumption | f_equal; lia].
Qed.

Lemma numbered_filter_sameRow (k : nat) (l : list Subtask) :
  Forall2 sameRow
    (List.filter nonblank (imap (fun i => withIndex (k + i)) l))
    (List.filter nonblank l).
Proof.
  revert k. induction l as [|x l IH]; intros k; [constructor|].
  cbn [imap List.filter].
  rewrite (imap_ext _ (fun i => withIndex (S k + i))).
  2:{ intros i y _. unfold compose. f_equal. lia. }
  rewrite nonblank_withIndex.
  destruct (nonblank x); [constructor; [split; reflexivity|]|]; apply IH.
Qed.



Lemma finalSubtasks_eq (st : NewTaskData) :
  finalSubtasks st
  = List.filter nonblank (imap (fun i => withIndex (0 + i)) (subtasks st)).
Proof. reflexivity. Qed.

(** The payload carries [finalSubtasks] under [subtasks]. *)
Lemma handleSubmit_subtasks (st : NewTaskData) (task : gmap string Value) :
  In (OnAddTask task) (handleSubmit st) ->
  task !! "subtasks" = Some (VSubtasks (finalSubtasks st)).
Proof.
  unfold handleSubmit. destruct (truthy (trim (title st))); simpl.
  - intros [H|[H|[H|[]]]]; try discriminate. injection H as <-. reflexivity.
  - intros [H|[]]. discriminate.
Qed.

(** ** C2: the subtasks of the payload *)




(** ** Reachable drafts *)

Section Reachable.
Variable tz : Z -> Z.

(** What one event does to the subtask list. *)
Lemma step_subtasks_cases (st : NewTaskData) (a : Action) :
  subtasks (step tz st a) = subtasks st
  \/ (exists index value sub,
        a = ChangeSubtask index value
        /\ at_index (subtasks st) index = Some sub
        /\ subtasks (step tz st a)
           = <[Z.to_nat index :=
                 {| sub_id := sub_id sub; sub_title := value;
                    sub_completed := sub_completed sub |}]> (subtasks st))
  \/ (exists index,
        a = ClickRemoveSubtask index
        /\ subtasks (step tz st a) = filter_index index (subtasks st))
  \/ (exists now,
        a = ClickAddSubtask now
        /\ addSubtaskDisabled st = false
        /\ subtasks (step tz st a)
           = subtasks st
             ++ [{| sub_id := Num now; sub_title := []; sub_completed := false |}]).
Proof.
  destruct a as [v|v|v|v|v|b|b|i v|i|now|v]; unfold step; simpl;
    try (left; reflexivity).
  - unfold handleSubtaskChange.
    destruct (at_index (subtasks st) i) as [sub|] eqn:Hi; [|left; reflexivity].
    right; left. exists i, v, sub. repeat split. assumption.
  - right; right; left. exists i. split; reflexivity.
  - unfold clickAddSubtask.
    destruct (addSubtaskDisabled st) eqn:Hd; [left; reflexivity|].
    right; right; right. exists now. repeat split.
Qed.

(** A property of the draft kept by every event holds after any run. *)
Lemma run_invariant (P : NewTaskData -> Prop) (actions : list Action) :
  forall st,
    P st ->
    (forall st' a, In a actions -> P st' -> P (step tz st' a)) ->
    P (run tz st actions).
Proof.
  unfold run. induction actions as [|a actions IH]; intros st H0 Hstep; [exact H0|].
  simpl. apply IH.
  - apply Hstep; [now left | exact H0].
  - intros st' a' Hin. apply Hstep. now right.
Qed.

Lemma step_completed_false (st : NewTaskData) (a : Action) :
  Forall (fun sub => sub_completed sub = false) (subtasks st) ->
  Forall (fun sub => sub_completed sub = false) (subtasks (step tz st a)).
Proof.
  intros H.
  destruct (step_subtasks_cases st a)
    as [Heq|[(i & v & sub & _ & Hi & Heq)|[(i & _ & Heq)|(now & _ & _ & Heq)]]];
    rewrite Heq.
  - exact H.
  - apply Forall_insert; [exact H|]. simpl.
    apply at_index_Some in Hi as [_ Hi].
    rewrite Forall_lookup in H. exact (H _ _ Hi).
  - now apply Forall_filter_index.
  - apply Forall_app. split; [exact H|]. repeat constructor.
Qed.
End Reachable.

(** ** C10: no subtask of a draft is ever completed *)

(** C10: in every state reached from the initial draft by any sequence of
    events, every subtask has [completed = false], and so has every subtask
    of the payload that submission emits from such a state. *)
Theorem subtasks_never_completed (tz : Z -> Z) (taskLists : list TaskList)
    (initialDueDate : option Date) (now : Z) (actions : list Action) :
  let st := run tz (initialState taskLists initialDueDate now) actions in
  Forall (fun sub => sub_completed sub = false) (subtasks st)
  /\ forall task, In (OnAddTask task) (handleSubmit st) ->
       exists l, task !! "subtasks" = Some (VSubtasks l)
                 /\ Forall (fun sub => sub_completed sub = false) l.
Proof.
  intros st.
  assert (Hdraft : Forall (fun sub => sub_completed sub = false) (subtasks st)).
  { subst st. apply run_invariant with (P := fun st =>
      Forall (fun sub => sub_completed sub = false) (subtasks st)).
    - constructor.
    - intros st' a _. apply step_completed_false. }
  split; [exact Hdraft|].
  intros task Hin. exists (finalSubtasks st).
  split; [now apply handleSubmit_subtasks|].
  apply Forall_lookup. intros j out Hj. rewrite finalSubtasks_eq in Hj.
  apply numbered_filter_lookup in Hj as (i & sub & _ & Hi & _ & ->). simpl.
  rewrite Forall_lookup in Hdraft. exact (Hdraft _ _ Hi).
Qed.

Lemma subtasks_never_completed_witness :
  let st := run (fun _ => 0) (initialState [] None 0)
              [ChangeTitle (lit "Buy milk"); ClickAddSubtask 5;
               ChangeSubtask 0 (lit "2% milk")] in
  Forall (fun sub => sub_completed sub = false) (subtasks st)
  /\ Forall (fun sub => sub_completed sub = false) (finalSubtasks st).
Proof.
  intros st.
  pose proof (subtasks_never_completed (fun _ => 0) [] None 0
                [ChangeTitle (lit "Buy milk"); ClickAddSubtask 5;
                 ChangeSubtask 0 (lit "2% milk")]) as [Hdraft Hpayload].
  split; [exact Hdraft|].
  destruct (Hpayload _ (or_intror (or_introl eq_refl))) as (l & Hl & Hall).
  injection Hl as <-. exact Hall.
Defined.

(** ** C6: blank rows *)

Lemma blank_row_iff (sub : Subtask) : blank sub = true <-> trim (sub_title sub) = [].
Proof.
  unfold blank, nonblank. destruct (trim (sub_title sub)); simpl; split; congruence.
Qed.

Lemma blankOnlyLast_tail (x : Subtask) (l : list Subtask) :
  blankOnlyLast (x :: l) -> blankOnlyLast l.
Proof.
  intros H i sub Hi Hb. specialize (H (S i) sub Hi Hb). simpl in H. lia.
Qed.

Lemma blankOnlyLast_count (l : list Subtask) :
  blankOnlyLast l -> (blankCount l <= 1)%nat.
Proof.
  unfold blankCount. induction l as [|x l IH]; intros H; [simpl; lia|].
  simpl. destruct (blank x) eqn:Hx.
  - specialize (H 0%nat x eq_refl Hx). simpl in H.
    destruct l; [simpl; lia | simpl in H; lia].
  - apply IH. eapply blankOnlyLast_tail, H.
Qed.

Lemma keepsRowsFilled_blanksOnlyLast (st : NewTaskData) (a : Action) :
  keepsRowsFilled a = true -> blanksOnlyLast st a = true.
Proof. destruct a; simpl; try reflexivity. intros ->. reflexivity. Qed.

Lemma step_blankOnlyLast (tz : Z -> Z) (st : NewTaskData) (a : Action) :
  blanksOnlyLast st a = true ->
  blankOnlyLast (subtasks st) ->
  blankOnlyLast (subtasks (step tz st a)).
Proof.
  intros Hkeep H.
  destruct (step_subtasks_cases tz st a)
    as [Heq|[(i & v & sub & -> & Hi & Heq)|[(i & _ & Heq)|(now & _ & Hd & Heq)]]];
    rewrite Heq; clear Heq.
  - exact H.
  - apply at_index_Some in Hi as [Hpos Hi]. simpl in Hkeep.
    intros j row Hj Hb. rewrite length_insert.
    destruct (decide (Z.to_nat i = j)) as [<-|Hne].
    + rewrite list_lookup_insert_eq in Hj by (eapply lookup_lt_Some, Hi).
      injection Hj as <-. apply blank_row_iff in Hb. simpl in Hb.
      rewrite Hb in Hkeep. simpl in Hkeep. apply lookup_lt_Some in Hi.
      rewrite !orb_true_iff, Z.eqb_eq, Z.ltb_lt, Z.leb_le in Hkeep. lia.
    + rewrite list_lookup_insert_ne in Hj by exact Hne. exact (H j row Hj Hb).
  - rewrite filter_index_delete. destruct (i <? 0) eqn:Hneg; [exact H|].
    intros j row Hj Hb.
    destruct (le_lt_dec (Z.to_nat i) j) as [Hle|Hlt].
    + rewrite list_lookup_delete_ge in Hj by exact Hle.
      pose proof (H (S j) row Hj Hb) as Hlen.
      rewrite length_delete; [lia|]. apply lookup_lt_is_Some. lia.
    + rewrite list_lookup_delete_lt in Hj by exact Hlt.
      pose proof (H j row Hj Hb) as Hlen.
      rewrite delete_take_drop, take_ge, drop_ge, app_nil_r by lia. exact Hlen.
  - intros j row Hj Hb. rewrite length_app. simpl.
    apply lookup_snoc_Some in Hj as [[Hlt Hj]|[-> _]]; [|lia].
    pose proof (H j row Hj Hb) as Hlen. exfalso.
    unfold addSubtaskDisabled in Hd. rewrite last_lookup, <- Hlen in Hd. simpl in Hd.
    rewrite Hj in Hd. apply blank_row_iff in Hb. rewrite Hb in Hd. discriminate.
Qed.

(** C6, as stated, fails: the guard looks at the last row only, and an edit
    may blank any row.  After a first row is added and titled, a second
    row is added and the first is blanked again, two rows are blank. *)
Lemma two_blank_rows_reachable :
  let st := run (fun _ => 0) (initialState [] None 0)
              [ClickAddSubtask 5; ChangeSubtask 0 (lit "x"); ClickAddSubtask 6;
               ChangeSubtask 0 (lit "")] in
  List.map sub_title (subtasks st) = [lit ""; lit ""]
  /\ blankCount (subtasks st) = 2%nat
  /\ ~ (blankCount (subtasks st) <= 1)%nat.
Proof.
  intros st. split; [reflexivity|]. split; [reflexivity|].
  change (~ (2 <= 1)%nat). lia.
Qed.

Lemma session_blankOnlyLast (tz : Z -> Z) (actions : list Action) :
  forall st,
    blankOnlyLast (subtasks st) ->
    sessionBlanksOnlyLast tz st actions ->
    blankOnlyLast (subtasks (run tz st actions)).
Proof.
  induction actions as [|a actions IH]; intros st H Hs; [exact H|].
  destruct Hs as [Ha Hrest]. unfold run. simpl.
  apply IH; [now apply step_blankOnlyLast | exact Hrest].
Qed.

(** C6, amended: in every draft state reached from the initial state by
    any sequence of guarded Add Subtask clicks, removals, subtask edits and
    other field edits in which no subtask edit sets a title that is empty
    after trimming on a row other than the last one, at most one subtask
    has an empty trimmed title, and it is the last row. *)
Theorem at_most_one_blank_row (tz : Z -> Z) (taskLists : list TaskList)
    (initialDueDate : option Date) (now : Z) (actions : list Action) :
  sessionBlanksOnlyLast tz (initialState taskLists initialDueDate now) actions ->
  let st := run tz (initialState taskLists initialDueDate now) actions in
  (blankCount (subtasks st) <= 1)%nat /\ blankOnlyLast (subtasks st).
Proof.
  intros Hkeep st.
  assert (H : blankOnlyLast (subtasks st)).
  { subst st. apply session_blankOnlyLast; [|exact Hkeep].
    intros i sub Hi. discriminate. }
  split; [now apply blankOnlyLast_count | exact H].
Qed.

Lemma at_most_one_blank_row_witness :
  let st := run (fun _ => 0) (initialState [] None 0)
              [ClickAddSubtask 5; ChangeSubtask 0 (lit "a"); ChangeSubtask 0 (lit "");
               ChangeSubtask 0 (lit "b"); ClickAddSubtask 6; ClickAddSubtask 7;
               ChangeSubtask 1 (lit "  "); ClickRemoveSubtask 0] in
  List.map sub_title (subtasks st) = [lit "  "]
  /\ (blankCount (subtasks st) <= 1)%nat /\ blankOnlyLast (subtasks st).
Proof.
  split; [reflexivity|].
  apply (at_most_one_blank_row (fun _ => 0) [] None 0
           [ClickAddSubtask 5; ChangeSubtask 0 (lit "a"); ChangeSubtask 0 (lit "");
            ChangeSubtask 0 (lit "b"); ClickAddSubtask 6; ClickAddSubtask 7;
            ChangeSubtask 1 (lit "  "); ClickRemoveSubtask 0]).
  simpl. repeat split.
Defined.

(** ** C5: the duration field *)

Lemma isDigit_bounds (c : Z) : isDigit c = true <-> 48 <= c <= 57.
Proof. unfold isDigit. rewrite andb_true_iff, !Z.leb_le. reflexivity. Qed.

Lemma digitValue_digit (c : Z) : isDigit c = true -> digitValue c = Some (c - 48).
Proof. unfold digitValue, isDigit. intros ->. reflexivity. Qed.

Lemma parseDigits_decimal (ds : list Z) (a : Z) :
  Forall (fun c => isDigit c = true) ds ->
  parseDigits 10 (Some a) ds = Some (fold_left (fun acc c => 10 * acc + (c - 48)) ds a).
Proof.
  revert a. induction ds as [|c ds IH]; intros a Hall; [reflexivity|].
  inversion Hall as [|? ? Hc Hds]; subst. simpl.
  rewrite (digitValue_digit c Hc). apply isDigit_bounds in Hc.
  destruct (Z.ltb_spec (c - 48) 10); [|lia]. now apply IH.
Qed.

(** On a run of decimal digits, [parseInt] gives the number they write
    (exactly, below 2^53). *)
Lemma parseInt_decimal (ds : list Z) :
  ds <> [] ->
  Forall (fun c => isDigit c = true) ds ->
  decimal ds < 2 ^ 53 ->
  parseInt ds = Num (decimal ds).
Proof.
  intros Hne Hall Hlt. destruct ds as [|c ds]; [congruence|].
  inversion Hall as [|? ? Hc Hds]; subst.
  pose proof (proj1 (isDigit_bounds c) Hc) as Hcb.
  assert (Hnn : forall l a, Forall (fun c => isDigit c = true) l -> 0 <= a ->
                  0 <= fold_left (fun acc c => 10 * acc + (c - 48)) l a).
  { induction l as [|x l IHl]; intros a Hl Ha; [exact Ha|].
    inversion Hl as [|? ? Hx Hl']; subst. simpl. apply IHl; [exact Hl'|].
    apply isDigit_bounds in Hx. lia. }
  assert (Htrim : isTrimmed c = false).
  { unfold isTrimmed, isWhiteSpace, isLineTerminator.
    repeat match goal with
           | |- context [?a =? ?b] => destruct (Z.eqb_spec a b); [lia|]
           | |- context [?a <=? ?b] => destruct (Z.leb_spec a b); [|]
           end; try reflexivity; lia. }
  unfold parseInt. cbn [trimStart]. rewrite Htrim.
  destruct (Z.eqb_spec c 45); [lia|]. destruct (Z.eqb_spec c 43); [lia|].
  cbn [orb].
  assert (Hrun : parseDigits 10 None (c :: ds) = Some (decimal (c :: ds))).
  { cbn [parseDigits]. rewrite (digitValue_digit c Hc).
    destruct (Z.ltb_spec (c - 48) 10); [|lia].
    rewrite parseDigits_decimal by exact Hds. reflexivity. }
  assert (Hres : toNumber (1 * decimal (c :: ds)) = Num (decimal (c :: ds))).
  { unfold toNumber. rewrite Z.mul_1_l.
    assert (0 <= decimal (c :: ds)).
    { unfold decimal. simpl. apply Hnn; [exact Hds | lia]. }
    rewrite Z.abs_eq by assumption.
    destruct (Z.ltb_spec (decimal (c :: ds)) (2 ^ 53)); [reflexivity | lia]. }
  destruct ds as [|x ds'].
  - rewrite Hrun. exact Hres.
  - inversion Hds as [|? ? Hx Hds']; subst. apply isDigit_bounds in Hx.
    destruct (Z.eqb_spec x 120); [lia|]. destruct (Z.eqb_spec x 88); [lia|].
    rewrite andb_false_r. rewrite Hrun. exact Hres.
Qed.

Lemma parseInt_examples :
  parseInt (lit "45") = Num 45 /\ parseInt (lit "0") = Num 0
  /\ parseInt (lit "") = NaN /\ parseInt (lit "abc") = NaN
  /\ parseInt (lit "-5") = Num (-5) /\ parseInt (lit "12abc") = Num 12
  /\ parseInt (lit "1.5") = Num 1 /\ parseInt (lit "9007199254740993") = Num 9007199254740992.
Proof. repeat split; vm_compute; reflexivity. Qed.

(** C5, as stated, fails: "-5" parses to the non-positive integer -5, which
    is truthy, and the duration becomes -5, not 60. *)
Lemma handleDurationChange_negative :
  let st := handleDurationChange (lit "-5") (initialState [] None 0) in
  parseInt (lit "-5") = Num (-5)
  /\ duration st = Num (-5)
  /\ duration st <> Num 60.
Proof. split; [reflexivity|]. split; [reflexivity | discriminate]. Qed.

(** C5, amended: for every input string on which [parseInt] gives NaN
    (non-numeric input) or 0, the duration update sets the duration to the
    default 60; for every string that parses to a non-zero integer [n],
    positive or negative, it sets the duration to [n].  No other field
    changes. *)
Theorem handleDurationChange_spec (value : jsstring) (prev : NewTaskData) :
  (parseInt value = NaN \/ parseInt value = Num 0 ->
   duration (handleDurationChange value prev) = Num 60)
  /\ (forall n, parseInt value = Num n -> n <> 0 ->
        duration (handleDurationChange value prev) = Num n)
  /\ handleDurationChange value prev
     = set_duration (duration (handleDurationChange value prev)) prev.
Proof.
  unfold handleDurationChange. simpl. repeat split.
  - intros H. apply orN_falsy, truthyN_false_iff, H.
  - intros n Hn Hnz. rewrite Hn. apply orN_truthy. simpl.
    destruct (Z.eqb_spec n 0); [contradiction | reflexivity].
Qed.

Lemma handleDurationChange_spec_witness :
  duration (handleDurationChange (lit "abc") (initialState [] None 0)) = Num 60
  /\ duration (handleDurationChange (lit "0") (initialState [] None 0)) = Num 60
  /\ duration (handleDurationChange (lit "45") (initialState [] None 0)) = Num 45.
Proof.
  split; [|split].
  - apply (proj1 (handleDurationChange_spec (lit "abc") (initialState [] None 0))).
    left. reflexivity.
  - apply (proj1 (handleDurationChange_spec (lit "0") (initialState [] None 0))).
    right. reflexivity.
  - apply (proj1 (proj2 (handleDurationChange_spec (lit "45") (initialState [] None 0))) 45).
    + reflexivity.
    + lia.
Defined.

(** ** Calendar arithmetic *)

Lemma DayFromYear_next (y : Z) : DayFromYear (y + 1) = DayFromYear y + DaysInYear y.
Proof.
  unfold DayFromYear, DaysInYear.
  repeat match goal with
         | |- context [?a =? ?b] => destruct (Z.eqb_spec a b)
         end; cbn [negb]; cbv iota; div_lia.
Qed.

Lemma DaysInYear_cases (y : Z) : DaysInYear y = 365 \/ DaysInYear y = 366.
Proof.
  unfold DaysInYear.
  repeat match goal with
         | |- context [?a =? ?b] => destruct (Z.eqb_spec a b)
         end; cbn [negb]; cbv iota; auto.
Qed.

Lemma DayFromYear_mono (y1 y2 : Z) : y1 <= y2 -> DayFromYear y1 <= DayFromYear y2.
Proof. unfold DayFromYear. intros. div_lia. Qed.

Lemma YearFromTime_bounds (t : Z) :
  DayFromYear (YearFromTime t) <= Day t < DayFromYear (YearFromTime t + 1).
Proof.
  unfold YearFromTime. set (d := Day t). set (y := 1970 + 400 * d / 146097).
  assert (Hlow : DayFromYear (y - 1) <= d) by (unfold DayFromYear; subst y; div_lia).
  assert (Hhigh : d < DayFromYear (y + 2)) by (unfold DayFromYear; subst y; div_lia).
  destruct (Z.leb_spec (DayFromYear (y + 1)) d).
  - replace (y + 1 + 1) with (y + 2) by lia. lia.
  - destruct (Z.leb_spec (DayFromYear y) d).
    + lia.
    + replace (y - 1 + 1) with y by lia. lia.
Qed.

(** [YearFromTime t] is the one year whose days include [Day t]. *)
Lemma YearFromTime_unique (t y : Z) :
  DayFromYear y <= Day t < DayFromYear (y + 1) -> YearFromTime t = y.
Proof.
  intros Hy. pose proof (YearFromTime_bounds t) as H0.
  destruct (Z.lt_trichotomy (YearFromTime t) y) as [Hlt|[Heq|Hgt]]; [|exact Heq|].
  - pose proof (DayFromYear_mono (YearFromTime t + 1) y). lia.
  - pose proof (DayFromYear_mono (y + 1) (YearFromTime t)). lia.
Qed.

(** [YearFromTime] meets its definition in ECMA-262: the largest year
    whose start is not after [t]. *)
Lemma YearFromTime_largest (t : Z) :
  TimeFromYear (YearFromTime t) <= t
  /\ forall y, TimeFromYear y <= t -> y <= YearFromTime t.
Proof.
  pose proof (YearFromTime_bounds t) as [Hlo Hhi]. unfold TimeFromYear.
  assert (HDay : msPerDay * Day t <= t < msPerDay * (Day t + 1))
    by (unfold Day, msPerDay; div_lia).
  split; [unfold msPerDay in *; lia|].
  intros y Hy. destruct (Z.le_gt_cases y (YearFromTime t)) as [|Hgt]; [assumption|].
  pose proof (DayFromYear_mono (YearFromTime t + 1) y). unfold msPerDay in *. lia.
Qed.

Lemma MakeDay_in_year (y m d : Z) :
  1 <= m <= 12 ->
  MakeDay y (m - 1) d
  = DayFromYear y
    + daysBeforeMonth (m - 1) (if DaysInYear y =? 366 then 1 else 0) + d - 1.
Proof.
  intros Hm. unfold MakeDay.
  replace ((m - 1) / 12) with 0 by div_lia.
  replace ((m - 1) mod 12) with (m - 1) by div_lia.
  rewrite Z.add_0_r. reflexivity.
Qed.

(** From a day of the calendar to a time value and back: any instant of
    the day [d] of month [m] of year [y] has these three as its fields. *)
Lemma fields_of_MakeDay (y m d tv : Z) :
  1 <= m <= 12 -> 1 <= d <= DaysInMonth y m -> 0 <= tv < msPerDay ->
  let t := MakeDate (MakeDay y (m - 1) d) tv in
  YearFromTime t = y /\ MonthFromTime t = m - 1 /\ DateFromTime t = d.
Proof.
  intros Hm Hd Htv t.
  assert (HDay : Day t = MakeDay y (m - 1) d)
    by (subst t; unfold Day, MakeDate, msPerDay in *; div_lia).
  rewrite MakeDay_in_year in HDay by assumption.
  unfold DaysInMonth in Hd.
  set (leap := if DaysInYear y =? 366 then 1 else 0) in *.
  assert (Hleap : (leap = 0 /\ DaysInYear y = 365) \/ (leap = 1 /\ DaysInYear y = 366)).
  { subst leap. destruct (DaysInYear_cases y) as [H|H]; rewrite H; simpl; auto. }
  assert (Hd' : 1 <= d <= match m with
                          | 2 => 28 + leap
                          | 4 | 6 | 9 | 11 => 30
                          | _ => 31
                          end).
  { destruct Hleap as [[Hl Hy]|[Hl Hy]]; rewrite Hy in Hd; rewrite Hl;
      destruct m as [|[[|[|[]|]|]|[[]|[]|]|]|]; simpl in *; lia. }
  clear Hd.
  assert (Hrange : 0 <= daysBeforeMonth (m - 1) leap + d - 1 < DaysInYear y).
  { month_cases m Hm'; simpl in *; lia. }
  assert (HY : YearFromTime t = y).
  { apply YearFromTime_unique. rewrite DayFromYear_next. lia. }
  assert (HW : DayWithinYear t = daysBeforeMonth (m - 1) leap + d - 1).
  { unfold DayWithinYear. rewrite HY. lia. }
  assert (HL : InLeapYear t = leap).
  { unfold InLeapYear. rewrite HY. reflexivity. }
  split; [exact HY|].
  assert (HM : MonthFromTime t = m - 1).
  { unfold MonthFromTime. rewrite HW, HL.
    month_cases m Hm'; simpl in *; decide_ltb. }
  split; [exact HM|].
  unfold DateFromTime. rewrite HM, HW, HL.
  month_cases m Hm'; simpl in *; lia.
Qed.

Lemma MonthFromTime_bounds (t : Z) :
  0 <= MonthFromTime t <= 11 /\ 1 <= DateFromTime t <= 31.
Proof.
  pose proof (YearFromTime_bounds t) as Hb. rewrite DayFromYear_next in Hb.
  assert (Hw : 0 <= DayWithinYear t < DaysInYear (YearFromTime t))
    by (unfold DayWithinYear; lia).
  unfold DateFromTime, MonthFromTime, InLeapYear.
  set (w := DayWithinYear t) in *.
  destruct (DaysInYear_cases (YearFromTime t)) as [Hy|Hy]; rewrite Hy in *;
    simpl (_ =? _); cbv iota; repeat first_ltb; lia.
Qed.

Lemma DateFromTime_eq (t : Z) :
  DateFromTime t
  = DayWithinYear t + 1 - daysBeforeMonth (MonthFromTime t) (InLeapYear t).
Proof.
  unfold DateFromTime, daysBeforeMonth.
  destruct (MonthFromTime t) as [|p|p]; [lia| |lia].
  do 5 (try (destruct p as [p|p|]; try lia)).
Qed.

(** From a time value to its fields and back to its day. *)
Lemma MakeDay_of_fields (t : Z) :
  MakeDay (YearFromTime t) (MonthFromTime t) (DateFromTime t) = Day t.
Proof.
  pose proof (MonthFromTime_bounds t) as [HM _].
  replace (MonthFromTime t) with (MonthFromTime t + 1 - 1) at 1 by lia.
  rewrite MakeDay_in_year by lia.
  replace (MonthFromTime t + 1 - 1) with (MonthFromTime t) by lia.
  rewrite DateFromTime_eq. unfold DayWithinYear, InLeapYear. lia.
Qed.

(** ** Date strings *)

Lemma digits_range (k : nat) (n : Z) : Forall (fun c => 48 <= c <= 57) (digits k n).
Proof.
  revert n. induction k as [|k IH]; intros n; [constructor|].
  simpl. apply Forall_app. split; [apply IH|]. repeat constructor; div_lia.
Qed.

Lemma split_first_app (sep : Z) (a b : jsstring) :
  Forall (fun c => c <> sep) a -> split_first sep (a ++ sep :: b) = a.
Proof.
  induction a as [|c a IH]; intros Ha; simpl.
  - rewrite Z.eqb_refl. reflexivity.
  - inversion Ha as [|? ? Hc Ha']; subst.
    destruct (Z.eqb_spec c sep); [contradiction|]. now rewrite IH.
Qed.

Lemma isoDate_no_T (t : Z) : Forall (fun c => c <> 84) (isoDate t).
Proof.
  assert (Hd : forall k n, Forall (fun c => c <> 84) (digits k n)).
  { intros k n. eapply Forall_impl; [apply digits_range|]. simpl. intros; lia. }
  unfold isoDate, isoYear. rewrite !Forall_app.
  repeat split; try apply Hd; try (repeat constructor; lia).
  destruct (_ && _); [apply Hd|]. constructor; [|apply Hd].
  destruct (_ <? _); lia.
Qed.

(** A valid date is displayed as its UTC day. *)
Lemma formatDateForInput_valid (t : Z) : formatDateForInput (Some t) = inr (isoDate t).
Proof.
  unfold formatDateForInput, toISOString. f_equal.
  change (isoDate t ++ [84] ++ isoTime t ++ [90])
    with (isoDate t ++ 84 :: (isoTime t ++ [90])).
  apply split_first_app, isoDate_no_T.
Qed.

Lemma formatDateForInput_invalid : formatDateForInput None = inl RangeError.
Proof. reflexivity. Qed.

Lemma digits4_decimal (a b c d : Z) :
  48 <= a <= 57 -> 48 <= b <= 57 -> 48 <= c <= 57 -> 48 <= d <= 57 ->
  0 <= decimal [a; b; c; d] <= 9999
  /\ digits 4 (decimal [a; b; c; d]) = [a; b; c; d].
Proof.
  intros Ha Hb Hc Hd. unfold decimal. simpl. split; [lia|].
  repeat f_equal; div_lia.
Qed.

Lemma digits2_decimal (a b : Z) :
  48 <= a <= 57 -> 48 <= b <= 57 ->
  0 <= decimal [a; b] <= 99 /\ digits 2 (decimal [a; b]) = [a; b].
Proof.
  intros Ha Hb. unfold decimal. simpl. split; [lia|]. repeat f_equal; div_lia.
Qed.

Lemma decimal_digits4 (n : Z) : 0 <= n <= 9999 -> decimal (digits 4 n) = n.
Proof. intros Hn. unfold decimal. simpl. div_lia. Qed.

Lemma decimal_digits2 (n : Z) : 0 <= n <= 99 -> decimal (digits 2 n) = n.
Proof. intros Hn. unfold decimal. simpl. div_lia. Qed.

Lemma dateOnlyFields_Some (s : jsstring) (y m d : Z) :
  dateOnlyFields s = Some (y, m, d) ->
  exists y1 y2 y3 y4 m1 m2 d1 d2,
    s = [y1; y2; y3; y4; 45; m1; m2; 45; d1; d2]
    /\ (48 <= y1 <= 57 /\ 48 <= y2 <= 57 /\ 48 <= y3 <= 57 /\ 48 <= y4 <= 57)
    /\ (48 <= m1 <= 57 /\ 48 <= m2 <= 57) /\ (48 <= d1 <= 57 /\ 48 <= d2 <= 57)
    /\ y = decimal [y1; y2; y3; y4] /\ m = decimal [m1; m2] /\ d = decimal [d1; d2].
Proof.
  unfold dateOnlyFields. intros H.
  destruct s as [|y1 [|y2 [|y3 [|y4 [|h1 [|m1 [|m2 [|h2 [|d1 [|d2 [|x s]]]]]]]]]]];
    try discriminate.
  destruct (forallb isDigit _ && (h1 =? 45) && (h2 =? 45)) eqn:Hc; [|discriminate].
  injection H as <- <- <-.
  apply andb_true_iff in Hc as [Hc Hh2]. apply andb_true_iff in Hc as [Hc Hh1].
  apply Z.eqb_eq in Hh1, Hh2. subst h1 h2.
  cbn [forallb] in Hc. rewrite !andb_true_iff, !isDigit_bounds in Hc.
  exists y1, y2, y3, y4, m1, m2, d1, d2. intuition.
Qed.

Lemma DayFromYear_four_digit (y : Z) :
  0 <= y <= 9999 -> -719528 <= DayFromYear y <= 2932896.
Proof. unfold DayFromYear. intros. div_lia. Qed.

(** The time value read from a date-only string: UTC midnight of the day. *)
Lemma Date_parse_fields (s : jsstring) (y m d : Z) :
  dateOnlyFields s = Some (y, m, d) -> 1 <= m <= 12 -> 1 <= d <= 31 ->
  0 <= y <= 9999
  /\ Date_parse s = Some (MakeDate (MakeDay y (m - 1) d) 0)
  /\ -63000000000000 <= MakeDate (MakeDay y (m - 1) d) 0 <= 254000000000000.
Proof.
  intros Hf Hm Hd. unfold Date_parse. rewrite Hf.
  apply dateOnlyFields_Some in Hf
    as (y1 & y2 & y3 & y4 & m1 & m2 & d1 & d2 & _ & (?&?&?&?) & _ & _ & -> & _ & _).
  destruct (digits4_decimal y1 y2 y3 y4) as [Hy _]; try assumption.
  set (y := decimal [y1; y2; y3; y4]) in *.
  assert (Hb : -63000000000000 <= MakeDate (MakeDay y (m - 1) d) 0 <= 254000000000000).
  { rewrite MakeDay_in_year by assumption.
    pose proof (DayFromYear_four_digit y Hy).
    assert (0 <= daysBeforeMonth (m - 1) (if DaysInYear y =? 366 then 1 else 0) <= 335).
    { destruct (DaysInYear y =? 366); month_cases m Hm'; simpl; lia. }
    unfold MakeDate, msPerDay. lia. }
  split; [exact Hy|]. split; [|exact Hb].
  destruct (Z.leb_spec 1 m), (Z.leb_spec m 12), (Z.leb_spec 1 d), (Z.leb_spec d 31);
    try lia.
  cbn [andb]. change (MakeTime 0 0 0 0) with 0. unfold TimeClip.
  destruct (Z.ltb_spec 8640000000000000 (Z.abs (MakeDate (MakeDay y (m - 1) d) 0)));
    [lia | reflexivity].
Qed.

Lemma isDateInputValue_fields (s : jsstring) :
  isDateInputValue s = true ->
  exists y m d,
    dateOnlyFields s = Some (y, m, d) /\ 1 <= m <= 12 /\ 1 <= d <= DaysInMonth y m.
Proof.
  unfold isDateInputValue. destruct (dateOnlyFields s) as [[[y m] d]|]; [|discriminate].
  rewrite !andb_true_iff, !Z.leb_le. intros (((?&?)&?)&?).
  exists y, m, d. repeat split; assumption.
Qed.

Lemma DaysInMonth_le_31 (y m : Z) : 1 <= m <= 12 -> DaysInMonth y m <= 31.
Proof.
  intros Hm. unfold DaysInMonth.
  destruct (DaysInYear y =? 366); month_cases m Hm'; simpl; lia.
Qed.

Lemma length_digits (k : nat) (n : Z) : length (digits k n) = k.
Proof.
  revert n. induction k as [|k IH]; intros n; [reflexivity|].
  simpl. rewrite length_app, IH. simpl. lia.
Qed.

Lemma Date_parse_Some (s : jsstring) (t0 : Z) :
  Date_parse s = Some t0 ->
  exists y m d,
    dateOnlyFields s = Some (y, m, d) /\ 1 <= m <= 12 /\ 1 <= d <= 31.
Proof.
  unfold Date_parse. destruct (dateOnlyFields s) as [[[y m] d]|]; [|discriminate].
  destruct (_ && _) eqn:Hc; [|discriminate]. intros _.
  rewrite !andb_true_iff, !Z.leb_le in Hc. exists y, m, d. intuition.
Qed.

(** ** C1: entering a date and showing it again *)

Lemma handleDateChange_dueDate (tz : Z -> Z) (D : jsstring) (prev : NewTaskData) (t0 : Z) :
  Date_parse D = Some t0 ->
  dueDate (handleDateChange tz D prev) = TimeClip (t0 + tz t0 * 60000).
Proof. intros H. unfold handleDateChange. rewrite H. reflexivity. Qed.

(** A cleared date field stores an invalid date, which cannot be shown. *)
Lemma redisplayed_empty (tz : Z -> Z) (prev : NewTaskData) :
  redisplayed tz [] prev = inl RangeError.
Proof. reflexivity. Qed.

(** At UTC and west of it (offsets from 0 up to a day) the date shown is
    the date entered. *)
Lemma redisplayed_west (tz : Z -> Z) (D : jsstring) (prev : NewTaskData) :
  isDateInputValue D = true ->
  (forall t0, Date_parse D = Some t0 -> 0 <= tz t0 < 1440) ->
  redisplayed tz D prev = inr D.
Proof.
  intros Hv Htz. apply isDateInputValue_fields in Hv as (y & m & d & Hf & Hm & Hd).
  pose proof (DaysInMonth_le_31 y m Hm) as H31.
  destruct (Date_parse_fields D y m d Hf Hm ltac:(lia)) as (Hy & Hp & Hb).
  specialize (Htz _ Hp).
  unfold redisplayed. rewrite (handleDateChange_dueDate tz D prev _ Hp).
  set (off := tz (MakeDate (MakeDay y (m - 1) d) 0)) in *.
  replace (MakeDate (MakeDay y (m - 1) d) 0 + off * 60000)
    with (MakeDate (MakeDay y (m - 1) d) (off * 60000)) by (unfold MakeDate; lia).
  assert (Hb' : Z.abs (MakeDate (MakeDay y (m - 1) d) (off * 60000)) <= 8640000000000000)
    by (unfold MakeDate in *; lia).
  unfold TimeClip. destruct (Z.ltb_spec 8640000000000000
            (Z.abs (MakeDate (MakeDay y (m - 1) d) (off * 60000)))); [lia|].
  rewrite formatDateForInput_valid. f_equal.
  destruct (fields_of_MakeDay y m d (off * 60000) Hm Hd ltac:(unfold msPerDay; lia))
    as (HY & HM & HD).
  unfold isoDate. rewrite HY, HM, HD. unfold isoYear.
  destruct (Z.leb_spec 0 y), (Z.leb_spec y 9999); try lia. cbn [andb].
  replace (m - 1 + 1) with m by lia.
  apply dateOnlyFields_Some in Hf
    as (y1 & y2 & y3 & y4 & m1 & m2 & d1 & d2 & -> & (?&?&?&?) & (?&?) & (?&?) & -> & -> & ->).
  rewrite (proj2 (digits4_decimal y1 y2 y3 y4 ltac:(assumption) ltac:(assumption)
                    ltac:(assumption) ltac:(assumption))).
  rewrite (proj2 (digits2_decimal m1 m2 ltac:(assumption) ltac:(assumption))).
  rewrite (proj2 (digits2_decimal d1 d2 ltac:(assumption) ltac:(assumption))).
  reflexivity.
Qed.

Lemma redisplayed_east_differs (tz : Z -> Z) (D : jsstring) (prev : NewTaskData)
    (t0 : Z) :
  Date_parse D = Some t0 -> -1440 <= tz t0 < 0 ->
  redisplayed tz D prev <> inr D.
Proof.
  intros Hp Htz. destruct (Date_parse_Some D t0 Hp) as (y & m & d & Hf & Hm & Hd).
  destruct (Date_parse_fields D y m d Hf Hm Hd) as (Hy & Hp' & Hb).
  rewrite Hp in Hp'. injection Hp' as Ht0.
  unfold redisplayed. rewrite (handleDateChange_dueDate tz D prev _ Hp).
  set (off := tz t0) in *. set (t' := t0 + off * 60000).
  assert (Hday : Day t' = MakeDay y (m - 1) d - 1)
    by (subst t' t0; unfold Day, MakeDate, msPerDay; div_lia).
  unfold TimeClip. destruct (Z.ltb_spec 8640000000000000 (Z.abs t')); [subst t'; lia|].
  rewrite formatDateForInput_valid. intros Heq. injection Heq as Heq.
  apply dateOnlyFields_Some in Hf
    as (y1 & y2 & y3 & y4 & m1 & m2 & d1 & d2 & -> & (?&?&?&?) & (?&?) & (?&?) & -> & -> & ->).
  pose proof (MonthFromTime_bounds t') as [HM HD].
  pose proof (MakeDay_of_fields t') as Hback.
  unfold isoDate, isoYear in Heq.
  destruct ((0 <=? YearFromTime t') && (YearFromTime t' <=? 9999)) eqn:Hyr.
  - apply andb_true_iff in Hyr as [Hy0 Hy9]. apply Z.leb_le in Hy0, Hy9.
    change [y1; y2; y3; y4; 45; m1; m2; 45; d1; d2]
      with ([y1; y2; y3; y4] ++ [45] ++ [m1; m2] ++ [45] ++ [d1; d2]) in Heq.
    apply app_inj_1 in Heq as [Hys Heq]; [|now rewrite length_digits].
    apply app_inj_1 in Heq as [_ Heq]; [|reflexivity].
    apply app_inj_1 in Heq as [Hms Heq]; [|now rewrite length_digits].
    apply app_inj_1 in Heq as [_ Hds]; [|reflexivity].
    apply (f_equal decimal) in Hys, Hms, Hds.
    rewrite decimal_digits4 in Hys by lia.
    rewrite decimal_digits2 in Hms, Hds by lia.
    rewrite <- Hys, <- Hds in Hday.
    replace (decimal [m1; m2] - 1) with (MonthFromTime t') in Hday by lia.
    lia.
  - simpl in Heq. injection Heq as Hsign _.
    destruct (YearFromTime t' <? 0); lia.
Qed.

(** East of UTC (negative offsets down to a day), for every date string
    [YYYY-MM-DD] naming a calendar day: the instant stored is a valid date
    that lies in the UTC day before the one entered, the field shows the
    date of that previous day, and this is never the date entered. *)
Lemma redisplayed_east (tz : Z -> Z) (D : jsstring) (prev : NewTaskData) (t0 : Z) :
  isDateInputValue D = true ->
  Date_parse D = Some t0 -> -1440 <= tz t0 < 0 ->
  exists t',
    dueDate (handleDateChange tz D prev) = Some t'
    /\ t' = t0 + tz t0 * 60000
    /\ Day t' = Day t0 - 1
    /\ redisplayed tz D prev = inr (isoDate t')
    /\ isoDate t' <> D
    /\ redisplayed tz D prev <> inr D.
Proof.
  intros Hv Hp Htz.
  pose proof (redisplayed_east_differs tz D prev t0 Hp Htz) as Hne.
  destruct (Date_parse_Some D t0 Hp) as (y & m & d & Hf & Hm & Hd).
  destruct (Date_parse_fields D y m d Hf Hm Hd) as (_ & Hp' & Hb).
  rewrite Hp in Hp'. injection Hp' as Ht0.
  exists (t0 + tz t0 * 60000).
  assert (Hdue : dueDate (handleDateChange tz D prev) = Some (t0 + tz t0 * 60000)).
  { rewrite (handleDateChange_dueDate tz D prev t0 Hp). unfold TimeClip.
    destruct (Z.ltb_spec 8640000000000000 (Z.abs (t0 + tz t0 * 60000)));
      [lia | reflexivity]. }
  assert (Hshow : redisplayed tz D prev = inr (isoDate (t0 + tz t0 * 60000))).
  { unfold redisplayed. rewrite Hdue. apply formatDateForInput_valid. }
  split; [exact Hdue|]. split; [reflexivity|]. split.
  { set (off := tz t0) in *. rewrite Ht0. unfold Day, MakeDate, msPerDay. div_lia. }
  split; [exact Hshow|]. split; [|exact Hne].
  intros Heq. apply Hne. rewrite Hshow, Heq. reflexivity.
Qed.

(** C1, on the code: with the date field holding 2024-01-15 and a host
    one hour east of UTC ([getTimezoneOffset() = -60]), [handleDateChange]
    stores 2024-01-14T23:00:00.000Z and [formatDateForInput] shows
    2024-01-14, not the date entered. *)
Theorem redisplayed_one_hour_east :
  let tz := fun _ : Z => -60 in
  let st := handleDateChange tz (lit "2024-01-15") (initialState [] None 0) in
  isDateInputValue (lit "2024-01-15") = true
  /\ toISOString (dueDate st) = inr (lit "2024-01-14T23:00:00.000Z")
  /\ redisplayed tz (lit "2024-01-15") (initialState [] None 0) = inr (lit "2024-01-14")
  /\ redisplayed tz (lit "2024-01-15") (initialState [] None 0) <> inr (lit "2024-01-15").
Proof.
  intros tz st.
  assert (H : redisplayed tz (lit "2024-01-15") (initialState [] None 0)
              = inr (lit "2024-01-14")) by (vm_compute; reflexivity).
  split; [vm_compute; reflexivity|]. split; [vm_compute; reflexivity|].
  split; [exact H|]. rewrite H. intros Heq. vm_compute in Heq. discriminate.
Qed.

Lemma redisplayed_west_witness :
  redisplayed (fun _ => 300) (lit "2024-01-15") (initialState [] None 0)
  = inr (lit "2024-01-15").
Proof.
  apply (redisplayed_west (fun _ => 300) (lit "2024-01-15")); [reflexivity|].
  intros. lia.
Defined.

Lemma redisplayed_east_witness :
  exists t',
    dueDate (handleDateChange (fun _ => -540) (lit "2024-03-01") (initialState [] None 0))
    = Some t'
    /\ t' = 1709251200000 + -540 * 60000
    /\ Day t' = Day 1709251200000 - 1
    /\ redisplayed (fun _ => -540) (lit "2024-03-01") (initialState [] None 0)
       = inr (isoDate t')
    /\ isoDate t' <> lit "2024-03-01"
    /\ redisplayed (fun _ => -540) (lit "2024-03-01") (initialState [] None 0)
       <> inr (lit "2024-03-01").
Proof.
  apply (redisplayed_east (fun _ => -540) (lit "2024-03-01")
           (initialState [] None 0) 1709251200000);
    [reflexivity | reflexivity | lia].
Defined.

(** ** The scenario of the specification *)

(** Lists [[{id: 1, name: "Home"}]], default due date 2024-01-01; the
    title is set to "  Buy milk  ", a subtask "2% milk" is added, and the
    form is submitted. *)
Lemma scenario_buy_milk :
  let home := {| tl_id := Num 1; tl_name := lit "Home"; tl_icon := [];
                 tl_color := []; tl_description := [] |} in
  let st := run (fun _ => 0) (initialState [home] (Some (Date_parse (lit "2024-01-01"))) 0)
              [ChangeTitle (lit "  Buy milk  "); ClickAddSubtask 1700000000000;
               ChangeSubtask 0 (lit "2% milk")] in
  exists task,
    handleSubmit st = [PreventDefault; OnAddTask task; OnClose]
    /\ task !! "title" = Some (VString (lit "Buy milk"))
    /\ task !! "listId" = Some (VNumber (Num 1))
    /\ task !! "dueDate" = Some (VDate (Date_parse (lit "2024-01-01")))
    /\ task !! "subtasks"
       = Some (VSubtasks [{| sub_id := Num 0; sub_title := lit "2% milk";
                             sub_completed := false |}])
    /\ task !! "completed" = None.
Proof. eexists. repeat split. Qed.

(** * Further properties of the handlers *)

(** ** Removing and editing rows *)

(** Removing a row that does not exist changes nothing: for every index
    that is out of bounds of the subtask list, [removeSubtask] returns the
    draft it was given. *)
Theorem removeSubtask_out_of_bounds (index : Z) (st : NewTaskData) :
  outOfBounds (subtasks st) index -> removeSubtask index st = st.
Proof.
  intros Hout. unfold removeSubtask.
  rewrite (filter_index_out_of_bounds index (subtasks st) Hout). now destruct st.
Qed.

Lemma removeSubtask_out_of_bounds_witness :
  let st := addSubtask 7 (initialState [] None 0) in
  removeSubtask (-1) st = st /\ removeSubtask 1 st = st.
Proof.
  split.
  - apply (removeSubtask_out_of_bounds (-1) (addSubtask 7 (initialState [] None 0))).
    left. lia.
  - apply (removeSubtask_out_of_bounds 1 (addSubtask 7 (initialState [] None 0))).
    right. simpl. lia.
Defined.

(** Removing an existing row takes out exactly that row: the rows before
    it keep their positions, the rows after it move down by one, the list
    is one shorter, and no other field of the draft changes. *)
Theorem removeSubtask_in_bounds (index : Z) (st : NewTaskData) (sub : Subtask) :
  at_index (subtasks st) index = Some sub ->
  let st' := removeSubtask index st in
  st' = set_subtasks (subtasks st') st
  /\ S (length (subtasks st')) = length (subtasks st)
  /\ (forall j, (j < Z.to_nat index)%nat -> subtasks st' !! j = subtasks st !! j)
  /\ (forall j, (Z.to_nat index <= j)%nat -> subtasks st' !! j = subtasks st !! S j).
Proof.
  intros Hi st'. apply at_index_Some in Hi as [Hpos Hi].
  assert (Hrows : subtasks st' = delete (Z.to_nat index) (subtasks st)).
  { subst st'. unfold removeSubtask. simpl. rewrite filter_index_delete.
    destruct (Z.ltb_spec index 0); [lia | reflexivity]. }
  split; [reflexivity|]. rewrite Hrows. split; [|split].
  - rewrite length_delete by eauto. apply lookup_lt_Some in Hi. lia.
  - intros j Hj. now apply list_lookup_delete_lt.
  - intros j Hj. now apply list_lookup_delete_ge.
Qed.

Lemma removeSubtask_in_bounds_witness :
  let st := run (fun _ => 0) (initialState [] None 0)
              [ClickAddSubtask 5; ChangeSubtask 0 (lit "a"); ClickAddSubtask 6;
               ChangeSubtask 1 (lit "b")] in
  let st' := removeSubtask 0 st in
  st' = set_subtasks (subtasks st') st
  /\ S (length (subtasks st')) = length (subtasks st)
  /\ (forall j, (j < Z.to_nat 0)%nat -> subtasks st' !! j = subtasks st !! j)
  /\ (forall j, (Z.to_nat 0 <= j)%nat -> subtasks st' !! j = subtasks st !! S j).
Proof.
  apply (removeSubtask_in_bounds 0
           (run (fun _ => 0) (initialState [] None 0)
              [ClickAddSubtask 5; ChangeSubtask 0 (lit "a"); ClickAddSubtask 6;
               ChangeSubtask 1 (lit "b")])
           {| sub_id := Num 5; sub_title := lit "a"; sub_completed := false |}).
  reflexivity.
Defined.

(** Editing an existing row replaces its title and nothing else: the row
    keeps its id and its completed flag, every other row and the length of
    the list are as before, and no other field of the draft changes. *)
Theorem handleSubtaskChange_replaces_title (index : Z) (value : jsstring)
    (st : NewTaskData) (sub : Subtask) :
  at_index (subtasks st) index = Some sub ->
  exists st',
    handleSubtaskChange index value st = inr st'
    /\ st' = set_subtasks (subtasks st') st
    /\ length (subtasks st') = length (subtasks st)
    /\ subtasks st' !! Z.to_nat index
       = Some {| sub_id := sub_id sub; sub_title := value;
                 sub_completed := sub_completed sub |}
    /\ (forall j, j <> Z.to_nat index -> subtasks st' !! j = subtasks st !! j).
Proof.
  intros Hi. rewrite (handleSubtaskChange_in_bounds index value st sub Hi).
  apply at_index_Some in Hi as [_ Hi].
  eexists. split; [reflexivity|]. simpl. split; [reflexivity|].
  split; [apply length_insert|]. split.
  - apply list_lookup_insert_eq. eapply lookup_lt_Some, Hi.
  - intros j Hj. apply list_lookup_insert_ne. congruence.
Qed.

Lemma handleSubtaskChange_replaces_title_witness :
  let st := addSubtask 7 (initialState [] None 0) in
  exists st',
    handleSubtaskChange 0 (lit "2% milk") st = inr st'
    /\ st' = set_subtasks (subtasks st') st
    /\ length (subtasks st') = length (subtasks st)
    /\ subtasks st' !! Z.to_nat 0
       = Some {| sub_id := Num 7; sub_title := lit "2% milk"; sub_completed := false |}
    /\ (forall j, j <> Z.to_nat 0 -> subtasks st' !! j = subtasks st !! j).
Proof.
  apply (handleSubtaskChange_replaces_title 0 (lit "2% milk")
           (addSubtask 7 (initialState [] None 0))
           {| sub_id := Num 7; sub_title := []; sub_completed := false |}).
  reflexivity.
Defined.

(** Two edits of the same existing row: the later title wins, and the
    result is the same as making the later edit alone. *)
Theorem handleSubtaskChange_last_wins (index : Z) (v1 v2 : jsstring)
    (st st1 : NewTaskData) :
  handleSubtaskChange index v1 st = inr st1 ->
  handleSubtaskChange index v2 st1 = handleSubtaskChange index v2 st.
Proof.
  unfold handleSubtaskChange.
  destruct (at_index (subtasks st) index) as [sub|] eqn:Hi; [|discriminate].
  intros [= <-]. apply at_index_Some in Hi as [Hpos Hi]. simpl.
  unfold at_index. destruct (Z.ltb_spec index 0); [lia|].
  rewrite list_lookup_insert_eq by (eapply lookup_lt_Some, Hi).
  simpl. rewrite list_insert_insert_eq. reflexivity.
Qed.

Lemma handleSubtaskChange_last_wins_witness :
  let st := addSubtask 7 (initialState [] None 0) in
  handleSubtaskChange 0 (lit "b") (step (fun _ => 0) st (ChangeSubtask 0 (lit "a")))
  = handleSubtaskChange 0 (lit "b") st.
Proof.
  apply (handleSubtaskChange_last_wins 0 (lit "a") (lit "b")
           (addSubtask 7 (initialState [] None 0))).
  reflexivity.
Defined.

(** ** The guarded Add Subtask click, composed *)

(** The guard makes the click idempotent: a second click right after a
    first one never adds a row, whatever the draft was. *)
Theorem clickAddSubtask_idempotent (now1 now2 : Z) (st : NewTaskData) :
  clickAddSubtask now2 (clickAddSubtask now1 st) = clickAddSubtask now1 st.
Proof.
  unfold clickAddSubtask at 2 3.
  destruct (addSubtaskDisabled st) eqn:Hd.
  - unfold clickAddSubtask. rewrite Hd. reflexivity.
  - unfold clickAddSubtask.
    replace (addSubtaskDisabled (addSubtask now1 st)) with true; [reflexivity|].
    symmetry. apply addSubtaskDisabled_true_iff.
    eexists _, _. split; reflexivity.
Qed.

(** A row that was just added by an enabled click is taken out again by
    removing the last position: the draft is back to what it was. *)
Theorem clickAddSubtask_then_remove (now : Z) (st : NewTaskData) :
  addSubtaskDisabled st = false ->
  removeSubtask (Z.of_nat (length (subtasks st))) (clickAddSubtask now st) = st.
Proof.
  intros Hd. unfold clickAddSubtask. rewrite Hd.
  unfold removeSubtask, addSubtask. simpl. rewrite filter_index_delete.
  destruct (Z.ltb_spec (Z.of_nat (length (subtasks st))) 0); [lia|].
  rewrite Nat2Z.id, delete_middle, app_nil_r. now destruct st.
Qed.

Lemma clickAddSubtask_then_remove_witness :
  let st := run (fun _ => 0) (initialState [] None 0)
              [ClickAddSubtask 5; ChangeSubtask 0 (lit "a")] in
  removeSubtask 1 (clickAddSubtask 6 st) = st.
Proof.
  apply (clickAddSubtask_then_remove 6
           (run (fun _ => 0) (initialState [] None 0)
              [ClickAddSubtask 5; ChangeSubtask 0 (lit "a")])).
  reflexivity.
Defined.

(** ** The payload *)

Lemma filter_nonblank_blank_length (l : list Subtask) :
  (length (List.filter nonblank l) + blankCount l = length l)%nat.
Proof.
  unfold blankCount, blank. induction l as [|x l IH]; [reflexivity|].
  simpl. destruct (nonblank x); simpl; lia.
Qed.

(** Submission drops the blank rows and nothing else: the payload has as
    many subtasks as the draft has rows with a non-blank title. *)
Theorem finalSubtasks_length (st : NewTaskData) :
  (length (finalSubtasks st) + blankCount (subtasks st) = length (subtasks st))%nat.
Proof.
  rewrite <- (filter_nonblank_blank_length (subtasks st)). f_equal.
  rewrite finalSubtasks_eq.
  apply (Forall2_length _ _ _ (numbered_filter_sameRow 0 (subtasks st))).
Qed.

Lemma numbered_filter_ids (k : nat) (l : list Subtask) (x : Number) :
  In x (List.map sub_id (List.filter nonblank (imap (fun i => withIndex (k + i)) l))) ->
  exists i, x = Num (Z.of_nat (k + i)).
Proof.
  intros Hin. apply in_map_iff in Hin as (out & <- & Hout).
  apply list_elem_of_In, list_elem_of_lookup in Hout as [j Hj].
  apply numbered_filter_lookup in Hj as (i & sub & _ & _ & _ & ->).
  exists i. reflexivity.
Qed.

Lemma numbered_filter_NoDup (k : nat) (l : list Subtask) :
  List.NoDup
    (List.map sub_id (List.filter nonblank (imap (fun i => withIndex (k + i)) l))).
Proof.
  revert k. induction l as [|x l IH]; intros k; [constructor|].
  cbn [imap List.filter].
  rewrite (imap_ext _ (fun i => withIndex (S k + i))).
  2:{ intros i y _. unfold compose. f_equal. lia. }
  rewrite nonblank_withIndex. destruct (nonblank x); [|apply IH].
  cbn [List.map]. constructor; [|apply IH].
  intros Hin. apply numbered_filter_ids in Hin as [i Hi].
  simpl in Hi. injection Hi as Hi. lia.
Qed.

(** Although the ids of the payload may have gaps, no two subtasks of a
    payload share an id. *)
Theorem finalSubtasks_ids_distinct (st : NewTaskData) :
  List.NoDup (List.map sub_id (finalSubtasks st)).
Proof. rewrite finalSubtasks_eq. apply numbered_filter_NoDup. Qed.

(** Submission hands over the scalar fields it does not normalise exactly
    as the draft has them: list id, due date, start time, duration and the
    two flags. *)
Theorem handleSubmit_passes_fields (st : NewTaskData) (task : gmap string Value) :
  In (OnAddTask task) (handleSubmit st) ->
  task !! "listId" = Some (VNumber (listId st))
  /\ task !! "dueDate" = Some (VDate (dueDate st))
  /\ task !! "startTime" = Some (VString (startTime st))
  /\ task !! "duration" = Some (VNumber (duration st))
  /\ task !! "isFixed" = Some (VBoolean (isFixed st))
  /\ task !! "important" = Some (VBoolean (important st)).
Proof.
  unfold handleSubmit. destruct (truthy (trim (title st))); simpl.
  - intros [H|[H|[H|[]]]]; try discriminate. injection H as <-.
    repeat split; reflexivity.
  - intros [H|[]]. discriminate.
Qed.

Lemma handleSubmit_passes_fields_witness :
  let st := handleDurationChange (lit "45")
              (set_title (lit "Buy milk") (initialState [] None 0)) in
  exists task,
    In (OnAddTask task) (handleSubmit st)
    /\ task !! "listId" = Some (VNumber (Num 1))
    /\ task !! "dueDate" = Some (VDate (Some 0))
    /\ task !! "startTime" = Some (VString [])
    /\ task !! "duration" = Some (VNumber (Num 45))
    /\ task !! "isFixed" = Some (VBoolean false)
    /\ task !! "important" = Some (VBoolean false).
Proof.
  intros st. eexists. split.
  - right. left. reflexivity.
  - apply (handleSubmit_passes_fields st). right. left. reflexivity.
Defined.

(** ** Trimming *)

Lemma trimStart_suffix (s : jsstring) : exists w, s = w ++ trimStart s.
Proof.
  induction s as [|c s [w IH]]; [exists []; reflexivity|].
  simpl. destruct (isTrimmed c).
  - exists (c :: w). simpl. now rewrite <- IH.
  - exists []. reflexivity.
Qed.

Lemma trimStart_head (s : jsstring) (c : Z) :
  head (trimStart s) = Some c -> isTrimmed c = false.
Proof.
  induction s as [|x s IH]; [discriminate|].
  simpl. destruct (isTrimmed x) eqn:Hx; [exact IH|].
  simpl. intros [= <-]. exact Hx.
Qed.

Lemma trimStart_clean (s : jsstring) :
  (forall c, head s = Some c -> isTrimmed c = false) -> trimStart s = s.
Proof.
  destruct s as [|x s]; [reflexivity|]. intros H. simpl.
  now rewrite (H x eq_refl).
Qed.

Lemma trimEnd_prefix (s : jsstring) : exists w, s = trimEnd s ++ w.
Proof.
  unfold trimEnd. destruct (trimStart_suffix (rev s)) as [w Hw].
  exists (rev w). rewrite <- rev_app_distr, <- Hw. symmetry. apply rev_involutive.
Qed.

Lemma trimEnd_last (s : jsstring) (c : Z) :
  last (trimEnd s) = Some c -> isTrimmed c = false.
Proof.
  unfold trimEnd. intros Hc. apply (trimStart_head (rev s)).
  destruct (trimStart (rev s)) as [|x r]; [discriminate|].
  simpl in Hc. rewrite last_snoc in Hc. exact Hc.
Qed.

Lemma trim_head (s : jsstring) (c : Z) :
  head (trim s) = Some c -> isTrimmed c = false.
Proof.
  unfold trim. intros Hc. destruct (trimEnd_prefix (trimStart s)) as [w Hw].
  apply (trimStart_head s). rewrite Hw.
  destruct (trimEnd (trimStart s)); [discriminate | exact Hc].
Qed.

Lemma trim_idempotent (s : jsstring) : trim (trim s) = trim s.
Proof.
  unfold trim at 1. rewrite (trimStart_clean (trim s)) by apply trim_head.
  unfold trim, trimEnd. rewrite rev_involutive. f_equal.
  apply trimStart_clean, trimStart_head.
Qed.

(** The title and the notes of every emitted payload are in trimmed form:
    neither starts or ends with white space or a line terminator, trimming
    them again changes nothing, and the title is not empty. *)
Theorem handleSubmit_text_trimmed (st : NewTaskData) (task : gmap string Value) :
  In (OnAddTask task) (handleSubmit st) ->
  exists t n,
    task !! "title" = Some (VString t) /\ task !! "notes" = Some (VString n)
    /\ t <> [] /\ trim t = t /\ trim n = n
    /\ (forall c, head t = Some c \/ last t = Some c -> isTrimmed c = false)
    /\ (forall c, head n = Some c \/ last n = Some c -> isTrimmed c = false).
Proof.
  unfold handleSubmit. destruct (truthy (trim (title st))) eqn:Ht; simpl.
  - intros [H|[H|[H|[]]]]; try discriminate. injection H as <-.
    exists (trim (title st)), (trim (notes st)).
    split; [reflexivity|]. split; [reflexivity|].
    split; [intros Hnil; rewrite Hnil in Ht; discriminate|].
    split; [apply trim_idempotent|]. split; [apply trim_idempotent|].
    split; intros c [Hc|Hc];
      solve [eapply trim_head, Hc | eapply trimEnd_last, Hc].
  - intros [H|[]]. discriminate.
Qed.

Lemma handleSubmit_text_trimmed_witness :
  let st := set_notes (lit " n ") (set_title (lit "  Buy milk  ") (initialState [] None 0)) in
  exists task t n,
    In (OnAddTask task) (handleSubmit st)
    /\ task !! "title" = Some (VString t) /\ task !! "notes" = Some (VString n)
    /\ t <> [] /\ trim t = t /\ trim n = n
    /\ (forall c, head t = Some c \/ last t = Some c -> isTrimmed c = false)
    /\ (forall c, head n = Some c \/ last n = Some c -> isTrimmed c = false).
Proof.
  intros st.
  assert (Hin : In (OnAddTask
                      (<["subtasks" := VSubtasks (finalSubtasks st)]>
                      (<["notes" := VString (trim (notes st))]>
                      (<["title" := VString (trim (title st))]>
                      (delete "completed" (toObject st))))))
                   (handleSubmit st)) by (right; left; reflexivity).
  destruct (handleSubmit_text_trimmed st _ Hin) as (t & n & H).
  eexists. exists t, n. split; [exact Hin | exact H].
Defined.

(** ** The duration field and the draft's scalar fields *)

(** Typing a positive number in decimal digits sets the duration to that
    number (exactly, below 2^53); leading zeros do not matter. *)
Theorem handleDurationChange_decimal (ds : jsstring) (prev : NewTaskData) :
  Forall (fun c => isDigit c = true) ds ->
  0 < decimal ds < 2 ^ 53 ->
  duration (handleDurationChange ds prev) = Num (decimal ds).
Proof.
  intros Hall Hrange. unfold handleDurationChange. simpl.
  rewrite parseInt_decimal; [| |exact Hall|lia].
  - apply orN_truthy. simpl. destruct (Z.eqb_spec (decimal ds) 0); [lia | reflexivity].
  - intros ->. unfold decimal in Hrange. simpl in Hrange. lia.
Qed.

Lemma handleDurationChange_decimal_witness :
  duration (handleDurationChange (lit "090") (initialState [] None 0)) = Num 90.
Proof.
  apply (handleDurationChange_decimal (lit "090") (initialState [] None 0)).
  - repeat constructor.
  - vm_compute. split; reflexivity.
Defined.

Lemma step_scalar_frame (tz : Z -> Z) (st : NewTaskData) (a : Action) :
  isSubtaskEvent a = true -> step tz st a = set_subtasks (subtasks (step tz st a)) st.
Proof.
  destruct a as [v|v|v|v|v|b|b|i v|i|now|v]; try discriminate; intros _;
    unfold step; simpl.
  - unfold handleSubtaskChange.
    destruct (at_index (subtasks st) i); [reflexivity | now destruct st].
  - reflexivity.
  - unfold clickAddSubtask. destruct (addSubtaskDisabled st);
      [now destruct st | reflexivity].
Qed.

(** The events on subtask rows change nothing but the subtask list, and
    every other event leaves the subtask list as it is. *)
Theorem step_frame (tz : Z -> Z) (st : NewTaskData) (a : Action) :
  (isSubtaskEvent a = true ->
   step tz st a = set_subtasks (subtasks (step tz st a)) st)
  /\ (isSubtaskEvent a = false -> subtasks (step tz st a) = subtasks st).
Proof.
  split; [apply step_scalar_frame|].
  destruct a; try discriminate; reflexivity.
Qed.

Lemma step_frame_witness :
  let st := set_title (lit "t") (addSubtask 7 (initialState [] None 0)) in
  step (fun _ => 0) st (ChangeSubtask 0 (lit "a"))
  = set_subtasks (subtasks (step (fun _ => 0) st (ChangeSubtask 0 (lit "a")))) st
  /\ subtasks (step (fun _ => 0) st (ChangeDuration (lit "45"))) = subtasks st.
Proof.
  split.
  - apply (proj1 (step_frame (fun _ => 0)
                    (set_title (lit "t") (addSubtask 7 (initialState [] None 0)))
                    (ChangeSubtask 0 (lit "a")))).
    reflexivity.
  - apply (proj2 (step_frame (fun _ => 0)
                    (set_title (lit "t") (addSubtask 7 (initialState [] None 0)))
                    (ChangeDuration (lit "45")))).
    reflexivity.
Defined.

(** In every state reached from the initial draft the duration is truthy:
    it is never NaN and never 0, whatever was typed into the field. *)
Theorem duration_never_falsy (tz : Z -> Z) (taskLists : list TaskList)
    (initialDueDate : option Date) (now : Z) (actions : list Action) :
  let st := run tz (initialState taskLists initialDueDate now) actions in
  truthyN (duration st) = true /\ duration st <> NaN /\ duration st <> Num 0.
Proof.
  intros st.
  assert (H : truthyN (duration st) = true).
  { subst st. apply run_invariant with (P := fun st => truthyN (duration st) = true).
    - reflexivity.
    - intros st' a _ Hst'.
      destruct (isSubtaskEvent a) eqn:Ha.
      + rewrite (step_scalar_frame tz st' a Ha). exact Hst'.
      + destruct a; try discriminate; try exact Hst'.
        unfold step. simpl. unfold orN.
        destruct (truthyN (parseInt value)) eqn:Hp; [exact Hp | reflexivity]. }
  split; [exact H|]. split; intros Heq; rewrite Heq in H; discriminate.
Qed.

(** No event sets the draft's own [completed] flag: it is false in every
    state reached from the initial draft. *)
Theorem draft_completed_never_set (tz : Z -> Z) (taskLists : list TaskList)
    (initialDueDate : option Date) (now : Z) (actions : list Action) :
  completed (run tz (initialState taskLists initialDueDate now) actions) = false.
Proof.
  apply run_invariant with (P := fun st => completed st = false).
  - reflexivity.
  - intros st' a _ Hst'.
    destruct (isSubtaskEvent a) eqn:Ha.
    + rewrite (step_scalar_frame tz st' a Ha). exact Hst'.
    + destruct a; try discriminate; exact Hst'.
Qed.

(** ** The list select *)

Lemma strictEqN_true (a b : Number) : strictEqN a b = true -> a = b.
Proof.
  destruct a, b; simpl; try discriminate; try reflexivity.
  intros H. apply Z.eqb_eq in H. now subst.
Qed.

Lemma strictEqN_refl_truthy (a : Number) : truthyN a = true -> strictEqN a a = true.
Proof. destruct a; simpl; try discriminate; try reflexivity. intros _. apply Z.eqb_refl. Qed.

(** At drawer open, the list shown as selected is the first supplied list
    whenever its id is truthy; without lists nothing is selected; and a
    list shown as selected is always a supplied list whose id is the
    draft's [listId]. *)
Theorem selectedList_at_open (taskLists : list TaskList)
    (initialDueDate : option Date) (now : Z) :
  let st := initialState taskLists initialDueDate now in
  (taskLists = [] -> selectedList taskLists st = None)
  /\ (forall l rest, taskLists = l :: rest -> truthyN (tl_id l) = true ->
        selectedList taskLists st = Some l)
  /\ (forall l, selectedList taskLists st = Some l ->
        In l taskLists /\ tl_id l = listId st).
Proof.
  intros st. split; [intros ->; reflexivity|]. split.
  - intros l rest -> Ht. unfold selectedList. subst st. simpl.
    rewrite (orN_truthy _ _ Ht), (strictEqN_refl_truthy _ Ht). reflexivity.
  - intros l Hl. apply find_some in Hl as [Hin Heq].
    split; [exact Hin | now apply strictEqN_true].
Qed.

Lemma selectedList_at_open_witness :
  let home := {| tl_id := Num 1; tl_name := lit "Home"; tl_icon := [];
                 tl_color := []; tl_description := [] |} in
  let work := {| tl_id := Num 2; tl_name := lit "Work"; tl_icon := [];
                 tl_color := []; tl_description := [] |} in
  selectedList [home; work] (initialState [home; work] None 0) = Some home
  /\ selectedList [] (initialState [] None 0) = None.
Proof.
  intros home work. split.
  - apply (proj1 (proj2 (selectedList_at_open [home; work] None 0)) home [work]);
      reflexivity.
  - apply (proj1 (selectedList_at_open [] None 0)). reflexivity.
Defined.

Lemma decimal_snoc (l : list Z) (c : Z) : decimal (l ++ [c]) = 10 * decimal l + (c - 48).
Proof. unfold decimal. rewrite fold_left_app. reflexivity. Qed.

Lemma decimalDigits_spec (fuel : nat) (n : Z) :
  (0 < fuel)%nat -> 0 <= n < 10 ^ Z.of_nat fuel ->
  decimalDigits fuel n <> []
  /\ Forall (fun c => isDigit c = true) (decimalDigits fuel n)
  /\ decimal (decimalDigits fuel n) = n.
Proof.
  revert n. induction fuel as [|f IH]; intros n Hfuel Hn; [lia|].
  - rewrite Nat2Z.inj_succ, Z.pow_succ_r in Hn by lia. simpl.
    destruct (Z.ltb_spec n 10) as [Hlt|Hge].
    + split; [discriminate|]. split.
      * repeat constructor. apply isDigit_bounds. lia.
      * unfold decimal. simpl. lia.
    + destruct (IH (n / 10)) as (Hne & Hall & Hdec).
      { destruct f; [simpl in Hn; lia | lia]. }
      { div_lia. }
      split; [intros Heq; apply app_eq_nil in Heq as [_ Heq]; discriminate|].
      split.
      * apply Forall_app. split; [exact Hall|].
        repeat constructor. apply isDigit_bounds. div_lia.
      * rewrite decimal_snoc, Hdec. div_lia.
Qed.

Lemma parseInt_minus_decimal (ds : list Z) :
  ds <> [] ->
  Forall (fun c => isDigit c = true) ds ->
  decimal ds < 2 ^ 53 ->
  parseInt (45 :: ds) = Num (- decimal ds).
Proof.
  intros Hne Hall Hlt. destruct ds as [|c ds]; [congruence|].
  inversion Hall as [|? ? Hc Hds]; subst.
  pose proof (proj1 (isDigit_bounds c) Hc) as Hcb.
  pose proof (parseInt_decimal (c :: ds) Hne Hall Hlt) as Hpos.
  assert (Hnn : 0 <= decimal (c :: ds)).
  { assert (H : forall l a, Forall (fun c => isDigit c = true) l -> 0 <= a ->
                  0 <= fold_left (fun acc c => 10 * acc + (c - 48)) l a).
    { induction l as [|x l IHl]; intros a Hl Ha; [exact Ha|].
      inversion Hl as [|? ? Hx Hl']; subst. simpl. apply IHl; [exact Hl'|].
      apply isDigit_bounds in Hx. lia. }
    unfold decimal. apply H; [exact Hall | lia]. }
  assert (Hrun : parseDigits 10 None (c :: ds) = Some (decimal (c :: ds))).
  { cbn [parseDigits]. rewrite (digitValue_digit c Hc).
    destruct (Z.ltb_spec (c - 48) 10); [|lia].
    rewrite parseDigits_decimal by exact Hds. reflexivity. }
  assert (Hres : toNumber (-1 * decimal (c :: ds)) = Num (- decimal (c :: ds))).
  { unfold toNumber.
    replace (Z.abs (-1 * decimal (c :: ds))) with (decimal (c :: ds)) by lia.
    destruct (Z.ltb_spec (decimal (c :: ds)) (2 ^ 53)); [f_equal; lia | lia]. }
  unfold parseInt. cbn [trimStart].
  change (isTrimmed 45) with false. cbv iota.
  change (45 =? 45) with true. change (45 =? 43) with false. cbn [orb]. cbv iota.
  destruct ds as [|x ds'].
  - rewrite Hrun. exact Hres.
  - inversion Hds as [|? ? Hx Hds']; subst. apply isDigit_bounds in Hx.
    destruct (Z.eqb_spec x 120); [lia|]. destruct (Z.eqb_spec x 88); [lia|].
    rewrite andb_false_r. rewrite Hrun. exact Hres.
Qed.

(** A number written by [toString] is read back by [parseInt]: exactly,
    for every integer below 2^53 in magnitude. *)
Lemma parseInt_toStringN (largeToString : Z -> jsstring) (z : Z) :
  Z.abs z < 2 ^ 53 -> parseInt (toStringN largeToString (Num z)) = Num z.
Proof.
  intros Hz. unfold toStringN.
  destruct (Z.ltb_spec (Z.abs z) (2 ^ 53)); [|lia].
  destruct (decimalDigits_spec 21 (Z.abs z)) as (Hne & Hall & Hdec);
    [lia | change (Z.of_nat 21) with 21; lia|].
  destruct (Z.ltb_spec z 0).
  - change ([45] ++ decimalDigits 21 (Z.abs z)) with (45 :: decimalDigits 21 (Z.abs z)).
    rewrite parseInt_minus_decimal by (try assumption; rewrite Hdec; lia).
    rewrite Hdec. f_equal. lia.
  - change ([] ++ decimalDigits 21 (Z.abs z)) with (decimalDigits 21 (Z.abs z)).
    rewrite parseInt_decimal by (try assumption; rewrite Hdec; lia).
    rewrite Hdec. f_equal. lia.
Qed.

(** Choosing a supplied list in the select stores that list's id, for
    every integer id below 2^53 in magnitude, and the list then shown as
    selected is a supplied list with this id. *)
Theorem selectItem_selects (largeToString : Z -> jsstring) (taskLists : list TaskList)
    (l : TaskList) (z : Z) (prev : NewTaskData) :
  In l taskLists -> tl_id l = Num z -> Z.abs z < 2 ^ 53 ->
  listId (selectItem largeToString l prev) = tl_id l
  /\ exists l', selectedList taskLists (selectItem largeToString l prev) = Some l'
                /\ tl_id l' = tl_id l.
Proof.
  intros Hin Hid Hz.
  assert (Hl : listId (selectItem largeToString l prev) = tl_id l).
  { unfold selectItem, handleListChange. simpl. rewrite Hid.
    now apply parseInt_toStringN. }
  split; [exact Hl|]. unfold selectedList. rewrite Hl.
  destruct (find _ taskLists) as [l'|] eqn:Hf.
  - exists l'. split; [reflexivity|]. apply find_some in Hf as [_ Heq].
    now apply strictEqN_true.
  - apply (find_none _ _ Hf) in Hin. rewrite Hid in Hin. simpl in Hin.
    rewrite Z.eqb_refl in Hin. discriminate.
Qed.

Lemma selectItem_selects_witness :
  let home := {| tl_id := Num 1; tl_name := lit "Home"; tl_icon := [];
                 tl_color := []; tl_description := [] |} in
  let work := {| tl_id := Num 20; tl_name := lit "Work"; tl_icon := [];
                 tl_color := []; tl_description := [] |} in
  let st := selectItem (fun _ => []) work (initialState [home; work] None 0) in
  listId st = Num 20
  /\ exists l', selectedList [home; work] st = Some l' /\ tl_id l' = Num 20.
Proof.
  intros home work.
  apply (selectItem_selects (fun _ => []) [home; work] work 20
           (initialState [home; work] None 0)).
  - right. left. reflexivity.
  - reflexivity.
  - vm_compute. reflexivity.
Defined.

(** A list whose id is NaN or an infinity cannot be chosen: its item value
    reads back as NaN, and with [listId] NaN no list is shown as selected,
    whatever the supplied lists. *)
Theorem selectItem_not_finite (largeToString : Z -> jsstring) (taskLists : list TaskList)
    (l : TaskList) (prev : NewTaskData) :
  tl_id l = NaN \/ tl_id l = PosInf \/ tl_id l = NegInf ->
  listId (selectItem largeToString l prev) = NaN
  /\ selectedList taskLists (selectItem largeToString l prev) = None.
Proof.
  intros Hid.
  assert (Hl : listId (selectItem largeToString l prev) = NaN).
  { unfold selectItem, handleListChange. simpl.
    destruct Hid as [ -> | [ -> | -> ] ]; vm_compute; reflexivity. }
  split; [exact Hl|]. unfold selectedList. rewrite Hl.
  induction taskLists as [|x xs IH]; [reflexivity|].
  simpl. destruct (tl_id x); exact IH.
Qed.

Lemma selectItem_not_finite_witness :
  let odd := {| tl_id := NaN; tl_name := lit "Odd"; tl_icon := [];
                tl_color := []; tl_description := [] |} in
  let st := selectItem (fun _ => []) odd (initialState [odd] None 0) in
  listId st = NaN /\ selectedList [odd] st = None.
Proof.
  intros odd.
  apply (selectItem_not_finite (fun _ => []) [odd] odd (initialState [odd] None 0)).
  left. reflexivity.
Defined.

(** ** The date field *)


Lemma DateFromTime_valid (t : Z) :
  1 <= DateFromTime t <= DaysInMonth (YearFromTime t) (MonthFromTime t + 1).
Proof.
  pose proof (YearFromTime_bounds t) as Hb. rewrite DayFromYear_next in Hb.
  assert (Hw : 0 <= DayWithinYear t < DaysInYear (YearFromTime t))
    by (unfold DayWithinYear; lia).
  unfold DateFromTime, MonthFromTime, InLeapYear, DaysInMonth.
  set (w := DayWithinYear t) in *.
  destruct (DaysInYear_cases (YearFromTime t)) as [Hy|Hy]; rewrite Hy in *;
    simpl (_ =? _); cbv iota; repeat first_ltb; simpl; lia.
Qed.

Lemma dateOnlyFields_digits (y m d : Z) :
  0 <= y <= 9999 -> 0 <= m <= 99 -> 0 <= d <= 99 ->
  dateOnlyFields (digits 4 y ++ [45] ++ digits 2 m ++ [45] ++ digits 2 d)
  = Some (y, m, d).
Proof.
  intros Hy Hm Hd.
  rewrite <- (decimal_digits4 y Hy) at 2.
  rewrite <- (decimal_digits2 m Hm) at 2. rewrite <- (decimal_digits2 d Hd) at 2.
  assert (Hdig : forall k, isDigit (48 + k mod 10) = true)
    by (intros k; apply isDigit_bounds; div_lia).
  cbn [digits app]. unfold dateOnlyFields. cbn [forallb].
  rewrite !Hdig. reflexivity.
Qed.

(** What the date field shows for a stored date can be entered again: for
    every valid date in the years 0 to 9999 it is a calendar date
    [YYYY-MM-DD], and the [Date] constructor reads it as UTC midnight of
    the UTC day the stored instant lies in. *)
Theorem formatDateForInput_parses_back (t : Z) :
  0 <= YearFromTime t <= 9999 ->
  exists s,
    formatDateForInput (Some t) = inr s
    /\ isDateInputValue s = true
    /\ Date_parse s = Some (Day t * msPerDay).
Proof.
  intros Hy. exists (isoDate t). split; [apply formatDateForInput_valid|].
  pose proof (MonthFromTime_bounds t) as [HM HD].
  pose proof (DateFromTime_valid t) as HDv.
  assert (Hf : dateOnlyFields (isoDate t)
               = Some (YearFromTime t, MonthFromTime t + 1, DateFromTime t)).
  { unfold isoDate, isoYear.
    destruct (Z.leb_spec 0 (YearFromTime t)), (Z.leb_spec (YearFromTime t) 9999);
      try lia.
    cbn [andb]. apply dateOnlyFields_digits; lia. }
  split.
  - unfold isDateInputValue. rewrite Hf.
    rewrite !andb_true_iff, !Z.leb_le. lia.
  - destruct (Date_parse_fields (isoDate t) _ _ _ Hf ltac:(lia) ltac:(lia))
      as (_ & Hp & _).
    rewrite Hp. f_equal.
    replace (MonthFromTime t + 1 - 1) with (MonthFromTime t) by lia.
    rewrite MakeDay_of_fields. unfold MakeDate. lia.
Qed.

Lemma formatDateForInput_parses_back_witness :
  exists s,
    formatDateForInput (Some 1705359600000) = inr s
    /\ isDateInputValue s = true
    /\ Date_parse s = Some (Day 1705359600000 * msPerDay).
Proof.
  apply (formatDateForInput_parses_back 1705359600000).
  vm_compute. split; discriminate.
Defined.

Lemma isoDate_of_date_input (D : jsstring) (y m d tv : Z) :
  dateOnlyFields D = Some (y, m, d) ->
  1 <= m <= 12 -> 1 <= d <= DaysInMonth y m -> 0 <= tv < msPerDay ->
  isoDate (MakeDate (MakeDay y (m - 1) d) tv) = D.
Proof.
  intros Hf Hm Hd Htv.
  destruct (fields_of_MakeDay y m d tv Hm Hd Htv) as (HY & HM & HD).
  unfold isoDate. rewrite HY, HM, HD. unfold isoYear.
  apply dateOnlyFields_Some in Hf
    as (y1 & y2 & y3 & y4 & m1 & m2 & d1 & d2 & -> & (?&?&?&?) & (?&?) & (?&?) & -> & -> & ->).
  destruct (digits4_decimal y1 y2 y3 y4) as [Hy Hys]; try assumption.
  destruct (digits2_decimal m1 m2) as [_ Hms]; try assumption.
  destruct (digits2_decimal d1 d2) as [_ Hds]; try assumption.
  destruct (Z.leb_spec 0 (decimal [y1; y2; y3; y4])),
    (Z.leb_spec (decimal [y1; y2; y3; y4]) 9999); try lia.
  cbn [andb]. replace (decimal [m1; m2] - 1 + 1) with (decimal [m1; m2]) by lia.
  rewrite Hys, Hms, Hds. reflexivity.
Qed.

(** The date that [handleDateChange] stores is the entered day at local
    midnight, east and west of UTC alike: on a host whose offset is the
    same at the parsed and at the stored instant, the local time of the
    stored instant spells the entered date. *)
Theorem handleDateChange_local_midnight (tz : Z -> Z) (D : jsstring)
    (prev : NewTaskData) (t0 : Z) :
  isDateInputValue D = true ->
  Date_parse D = Some t0 ->
  -1440 <= tz t0 <= 1440 ->
  tz (t0 + tz t0 * 60000) = tz t0 ->
  exists t',
    dueDate (handleDateChange tz D prev) = Some t'
    /\ LocalTime tz t' = t0
    /\ TimeWithinDay (LocalTime tz t') = 0
    /\ isoDate (LocalTime tz t') = D.
Proof.
  intros Hv Hp Hoff Hsame.
  apply isDateInputValue_fields in Hv as (y & m & d & Hf & Hm & Hd).
  pose proof (DaysInMonth_le_31 y m Hm) as H31.
  destruct (Date_parse_fields D y m d Hf Hm ltac:(lia)) as (Hy & Hp' & Hb).
  rewrite Hp in Hp'. injection Hp' as Ht0.
  exists (t0 + tz t0 * 60000).
  assert (Hlocal : LocalTime tz (t0 + tz t0 * 60000) = t0).
  { unfold LocalTime, msPerMinute. rewrite Hsame. lia. }
  split.
  - rewrite (handleDateChange_dueDate tz D prev t0 Hp). unfold TimeClip.
    destruct (Z.ltb_spec 8640000000000000 (Z.abs (t0 + tz t0 * 60000)));
      [lia | reflexivity].
  - split; [exact Hlocal|]. rewrite Hlocal. split.
    + rewrite Ht0. unfold TimeWithinDay, MakeDate, msPerDay. div_lia.
    + rewrite Ht0. apply isoDate_of_date_input; try assumption.
      unfold msPerDay. lia.
Qed.

Lemma handleDateChange_local_midnight_witness :
  exists t',
    dueDate (handleDateChange (fun _ => -60) (lit "2024-01-15") (initialState [] None 0))
    = Some t'
    /\ LocalTime (fun _ => -60) t' = 1705276800000
    /\ TimeWithinDay (LocalTime (fun _ => -60) t') = 0
    /\ isoDate (LocalTime (fun _ => -60) t') = lit "2024-01-15".
Proof.
  apply (handleDateChange_local_midnight (fun _ => -60) (lit "2024-01-15")
           (initialState [] None 0) 1705276800000).
  - reflexivity.
  - reflexivity.
  - lia.
  - reflexivity.
Defined.

(** ** The Add Task button *)

(** The button's [disabled] attribute and the guard of [handleSubmit] agree:
    with the button disabled a submit event emits nothing, and with the
    button enabled it always emits one payload and closes the drawer. *)
Theorem submitDisabled_agrees (st : NewTaskData) :
  (submitDisabled st = true -> handleSubmit st = [PreventDefault])
  /\ (submitDisabled st = false ->
      exists task, handleSubmit st = [PreventDefault; OnAddTask task; OnClose]).
Proof.
  unfold submitDisabled, handleSubmit.
  destruct (truthy (trim (title st))); simpl; split; try discriminate.
  - intros _. eexists. reflexivity.
  - reflexivity.
Qed.

Lemma submitDisabled_agrees_witness :
  handleSubmit (initialState [] None 0) = [PreventDefault]
  /\ exists task,
       handleSubmit (set_title (lit "a") (initialState [] None 0))
       = [PreventDefault; OnAddTask task; OnClose].
Proof.
  split.
  - apply (proj1 (submitDisabled_agrees (initialState [] None 0))). reflexivity.
  - apply (proj2 (submitDisabled_agrees (set_title (lit "a") (initialState [] None 0)))).
    reflexivity.
Defined.

(** ** Every list of titles can be typed *)

Lemma run_app (tz : Z -> Z) (st : NewTaskData) (a b : list Action) :
  run tz st (a ++ b) = run tz (run tz st a) b.
Proof. unfold run. apply fold_left_app. Qed.

Lemma step_edit_row (tz : Z -> Z) (st : NewTaskData) (pre rest : list Subtask)
    (row : Subtask) (value : jsstring) :
  subtasks st = pre ++ row :: rest ->
  subtasks (step tz st (ChangeSubtask (Z.of_nat (length pre)) value))
  = pre ++ {| sub_id := sub_id row; sub_title := value;
              sub_completed := sub_completed row |} :: rest.
Proof.
  intros Hrows. unfold step. simpl.
  rewrite (handleSubtaskChange_in_bounds _ value st row).
  - simpl. rewrite Nat2Z.id, Hrows.
    replace (length pre) with (length pre + 0)%nat at 1 by lia.
    rewrite insert_app_r. reflexivity.
  - apply at_index_Some. split; [lia|].
    rewrite Nat2Z.id, Hrows. now apply list_lookup_middle.
Qed.

Lemma run_addRows (tz : Z -> Z) (st : NewTaskData) (n : nat) :
  subtasks st = [] ->
  subtasks (run tz st (addRows n)) = replicate n fillerRow.
Proof.
  intros Hnil. induction n as [|n IH]; [exact Hnil|].
  unfold addRows in *. rewrite seq_S, flat_map_app, run_app.
  cbn [flat_map app Nat.add].
  set (st' := run tz st (flat_map _ (seq 0 n))) in *.
  unfold run at 1. cbn [fold_left].
  assert (Hen : addSubtaskDisabled st' = false).
  { unfold addSubtaskDisabled. rewrite IH.
    destruct (last (replicate n fillerRow)) as [row|] eqn:Hl; [|reflexivity].
    rewrite last_lookup in Hl. apply lookup_replicate_1 in Hl as [-> _]. reflexivity. }
  assert (Hadd : subtasks (step tz st' (ClickAddSubtask 0))
                 = replicate n fillerRow
                   ++ {| sub_id := Num 0; sub_title := []; sub_completed := false |} :: []).
  { unfold step. simpl. unfold clickAddSubtask. rewrite Hen. simpl. now rewrite IH. }
  pose proof (step_edit_row tz _ _ _ _ (sub_title fillerRow) Hadd) as Hedit.
  rewrite length_replicate in Hedit. rewrite Hedit, replicate_S_end. reflexivity.
Qed.

Lemma run_setTitles (tz : Z -> Z) (titles : list jsstring) :
  forall (st : NewTaskData) (pre rest : list Subtask),
    subtasks st = pre ++ rest -> length rest = length titles ->
    List.map sub_title (subtasks (run tz st (setTitles (length pre) titles)))
    = List.map sub_title pre ++ titles.
Proof.
  induction titles as [|t ts IH]; intros st pre rest Hrows Hlen.
  - destruct rest; [|discriminate]. simpl. rewrite Hrows, !app_nil_r. reflexivity.
  - destruct rest as [|row rest]; [discriminate|].
    pose proof (step_edit_row tz st pre rest row t Hrows) as Hedit.
    set (row' := {| sub_id := sub_id row; sub_title := t;
                    sub_completed := sub_completed row |}) in *.
    unfold setTitles. cbn [imap].
    rewrite (imap_ext _ (fun i t => ChangeSubtask (Z.of_nat (length (pre ++ [row']) + i)) t)).
    2:{ intros i y _. unfold compose. rewrite length_app. simpl. do 2 f_equal. lia. }
    replace (length pre + 0)%nat with (length pre) by lia.
    fold (setTitles (length (pre ++ [row'])) ts).
    unfold run at 1. cbn [fold_left].
    change (fold_left (step tz) ?l ?s) with (run tz s l).
    rewrite (IH _ (pre ++ [row']) rest).
    + rewrite map_app, <- app_assoc. reflexivity.
    + rewrite Hedit, <- app_assoc. reflexivity.
    + simpl in Hlen. lia.
Qed.

(** The guard on the Add Subtask button restricts no outcome: for every
    list of titles, blank ones included, a session of clicks and edits
    from the fresh draft ends with exactly these titles as the rows. *)
Theorem any_titles_reachable (tz : Z -> Z) (taskLists : list TaskList)
    (initialDueDate : option Date) (now : Z) (titles : list jsstring) :
  List.map sub_title
    (subtasks (run tz (initialState taskLists initialDueDate now) (typeRows titles)))
  = titles.
Proof.
  unfold typeRows. rewrite run_app.
  set (st := run tz _ (addRows (length titles))).
  assert (Hrows : subtasks st = [] ++ replicate (length titles) fillerRow)
    by (subst st; now apply run_addRows).
  apply (run_setTitles tz titles st [] _ Hrows), length_replicate.
Qed.
